(** * Ground-station UAV simulation: the per-tick state update

    A shallow embedding of [ground-station/src/utils/uavSimulation.js]
    (the geodesy helpers, [getCoverageRadius] and [updateUAVState]) and the
    properties of the tick function that the design document lists.

    Modelling conventions.
    - A JavaScript Number is a real number ([R]): arithmetic is exact, there
      is no NaN, no infinity and no rounding.  Counters and array indices
      are natural numbers.
    - A property that may be [undefined] is an [option]; the idiom [x || d]
      is [orDefault] (on an optional number) or [orElse] (on a number):
      [undefined] and [0] both select the default [d].
    - The optional parameter [deltaTime = 1] is always passed.
    - [updateUAVState] copies its first argument into a fresh object
      [updatedUAV] and then assigns to that copy.  The body is written in a
      small state monad whose store holds the two objects the body can
      reach besides the immutable argument [uav]: the copy and the route
      object passed as [searchArea]. *)

From Stdlib Require Import Reals Lra List String Bool Arith Lia.
Import ListNotations.

Open Scope R_scope.

(* ================================================================== *)
(** ** JavaScript idioms *)

Module Js.

(** [x < y], [x >= y] and [x === 0] on numbers, as booleans. *)
Definition ltb (x y : R) : bool := if Rlt_dec x y then true else false.
Definition geb (x y : R) : bool := if Rge_dec x y then true else false.
Definition isZero (x : R) : bool := if Req_dec_T x 0 then true else false.

(** [x || d] where [x] is a number. *)
Definition orElse (x d : R) : R := if isZero x then d else x.

(** [x || d] where [x] is a number or [undefined]. *)
Definition orDefault (x : option R) (d : R) : R :=
  match x with
  | Some v => orElse v d
  | None => d
  end.

(** [xs || []] where [xs] is an array or [undefined]. *)
Definition orEmpty {A : Type} (xs : option (list A)) : list A :=
  match xs with
  | Some l => l
  | None => []
  end.

(** [xs.slice(-n)]: the last [n] elements. *)
Definition sliceLast {A : Type} (n : nat) (xs : list A) : list A :=
  skipn (List.length xs - n) xs.

(** [xs[xs.length - 1]] on a non-empty array, [null] otherwise. *)
Definition lastElement {A : Type} (xs : list A) : option A :=
  nth_error xs (List.length xs - 1).

(** Truncation toward zero and the remainder operator [a % b]. *)
Definition trunc (x : R) : Z :=
  if Rle_dec 0 x then Int_part x else (- Int_part (- x))%Z.
Definition rem (a b : R) : R := a - b * IZR (trunc (a / b)).

(** [Math.atan2(y, x)]. *)
Definition atan2 (y x : R) : R :=
  if Rlt_dec 0 x then atan (y / x)
  else if Rlt_dec x 0 then
    (if Rle_dec 0 y then atan (y / x) + PI else atan (y / x) - PI)
  else if Rlt_dec 0 y then PI / 2
  else if Rlt_dec y 0 then - (PI / 2)
  else 0.

End Js.

(* ================================================================== *)
(** ** Data model *)

(** [{ lat, lng }] *)
Record LatLng : Type := mkLatLng { lat : R; lng : R }.

(** An element of [coveragePoints]: the current format
    [{ position, altitude }], or the old format, a bare [{ lat, lng }]. *)
Inductive CoveragePoint : Type :=
| Sample (position : LatLng) (altitude : R)
| Legacy (point : LatLng).

(** [lastCoveragePoint.position || lastCoveragePoint] *)
Definition samplePosition (c : CoveragePoint) : LatLng :=
  match c with
  | Sample p _ => p
  | Legacy p => p
  end.

(** The vehicle object, with the properties [App.js] creates it with and
    the ones the simulation adds. *)
Record UAV : Type := mkUAV {
  uav_id : string;
  uav_name : string;
  position : LatLng;
  status : string;
  battery : R;
  speed : R;
  altitude : R;
  direction : R;
  isSearching : bool;
  targetFound : bool;
  flightPath : option (list LatLng);
  coveragePoints : option (list CoveragePoint);
  isOnline : bool;
  isMock : bool;
  targetSpeed : option R;
  targetAltitude : option R;
  currentWaypointIndex : option nat;
  startPosition : option LatLng;
  altitudeHistory : option (list R);
  altitudeHistorySampleCounter : option nat
}.

(** The route object ([searchArea]); [bounds] is the waypoint queue. *)
Record SearchArea : Type := mkSearchArea {
  area_id : string;
  bounds : option (list LatLng);
  area_status : string;
  assignedUAV : option string
}.

(** Property assignments [u.f = v]. *)
Definition set_position (v : LatLng) (u : UAV) : UAV :=
  mkUAV (uav_id u) (uav_name u) v (status u) (battery u) (speed u)
        (altitude u) (direction u) (isSearching u) (targetFound u)
        (flightPath u) (coveragePoints u) (isOnline u) (isMock u)
        (targetSpeed u) (targetAltitude u) (currentWaypointIndex u)
        (startPosition u) (altitudeHistory u) (altitudeHistorySampleCounter u).

Definition set_status (v : string) (u : UAV) : UAV :=
  mkUAV (uav_id u) (uav_name u) (position u) v (battery u) (speed u)
        (altitude u) (direction u) (isSearching u) (targetFound u)
        (flightPath u) (coveragePoints u) (isOnline u) (isMock u)
        (targetSpeed u) (targetAltitude u) (currentWaypointIndex u)
        (startPosition u) (altitudeHistory u) (altitudeHistorySampleCounter u).

Definition set_battery (v : R) (u : UAV) : UAV :=
  mkUAV (uav_id u) (uav_name u) (position u) (status u) v (speed u)
        (altitude u) (direction u) (isSearching u) (targetFound u)
        (flightPath u) (coveragePoints u) (isOnline u) (isMock u)
        (targetSpeed u) (targetAltitude u) (currentWaypointIndex u)
        (startPosition u) (altitudeHistory u) (altitudeHistorySampleCounter u).

Definition set_speed (v : R) (u : UAV) : UAV :=
  mkUAV (uav_id u) (uav_name u) (position u) (status u) (battery u) v
        (altitude u) (direction u) (isSearching u) (targetFound u)
        (flightPath u) (coveragePoints u) (isOnline u) (isMock u)
        (targetSpeed u) (targetAltitude u) (currentWaypointIndex u)
        (startPosition u) (altitudeHistory u) (altitudeHistorySampleCounter u).

Definition set_altitude (v : R) (u : UAV) : UAV :=
  mkUAV (uav_id u) (uav_name u) (position u) (status u) (battery u) (speed u)
        v (direction u) (isSearching u) (targetFound u)
        (flightPath u) (coveragePoints u) (isOnline u) (isMock u)
        (targetSpeed u) (targetAltitude u) (currentWaypointIndex u)
        (startPosition u) (altitudeHistory u) (altitudeHistorySampleCounter u).

Definition set_direction (v : R) (u : UAV) : UAV :=
  mkUAV (uav_id u) (uav_name u) (position u) (status u) (battery u) (speed u)
        (altitude u) v (isSearching u) (targetFound u)
        (flightPath u) (coveragePoints u) (isOnline u) (isMock u)
        (targetSpeed u) (targetAltitude u) (currentWaypointIndex u)
        (startPosition u) (altitudeHistory u) (altitudeHistorySampleCounter u).

Definition set_flightPath (v : option (list LatLng)) (u : UAV) : UAV :=
  mkUAV (uav_id u) (uav_name u) (position u) (status u) (battery u) (speed u)
        (altitude u) (direction u) (isSearching u) (targetFound u)
        v (coveragePoints u) (isOnline u) (isMock u)
        (targetSpeed u) (targetAltitude u) (currentWaypointIndex u)
        (startPosition u) (altitudeHistory u) (altitudeHistorySampleCounter u).

Definition set_coveragePoints (v : option (list CoveragePoint)) (u : UAV) : UAV :=
  mkUAV (uav_id u) (uav_name u) (position u) (status u) (battery u) (speed u)
        (altitude u) (direction u) (isSearching u) (targetFound u)
        (flightPath u) v (isOnline u) (isMock u)
        (targetSpeed u) (targetAltitude u) (currentWaypointIndex u)
        (startPosition u) (altitudeHistory u) (altitudeHistorySampleCounter u).

Definition set_currentWaypointIndex (v : option nat) (u : UAV) : UAV :=
  mkUAV (uav_id u) (uav_name u) (position u) (status u) (battery u) (speed u)
        (altitude u) (direction u) (isSearching u) (targetFound u)
        (flightPath u) (coveragePoints u) (isOnline u) (isMock u)
        (targetSpeed u) (targetAltitude u) v
        (startPosition u) (altitudeHistory u) (altitudeHistorySampleCounter u).

Definition set_altitudeHistory (v : option (list R)) (u : UAV) : UAV :=
  mkUAV (uav_id u) (uav_name u) (position u) (status u) (battery u) (speed u)
        (altitude u) (direction u) (isSearching u) (targetFound u)
        (flightPath u) (coveragePoints u) (isOnline u) (isMock u)
        (targetSpeed u) (targetAltitude u) (currentWaypointIndex u)
        (startPosition u) v (altitudeHistorySampleCounter u).

Definition set_altitudeHistorySampleCounter (v : option nat) (u : UAV) : UAV :=
  mkUAV (uav_id u) (uav_name u) (position u) (status u) (battery u) (speed u)
        (altitude u) (direction u) (isSearching u) (targetFound u)
        (flightPath u) (coveragePoints u) (isOnline u) (isMock u)
        (targetSpeed u) (targetAltitude u) (currentWaypointIndex u)
        (startPosition u) (altitudeHistory u) v.

(* ================================================================== *)
(** ** Geodesy *)

(** [calculateNewPosition(currentPos, direction, speed, deltaTime)] *)
Definition calculateNewPosition
    (currentPos : LatLng) (direction speed deltaTime : R) : LatLng :=
  let radians := (direction * PI) / 180 in
  let distanceDegrees := (speed * deltaTime) / 111000 in
  {| lat := lat currentPos + distanceDegrees * cos radians;
     lng := lng currentPos
            + distanceDegrees * sin radians / cos (lat currentPos * PI / 180) |}.

(** [calculateDistance(pos1, pos2)]: haversine distance in meters. *)
Definition calculateDistance (pos1 pos2 : LatLng) : R :=
  let R_ := 6371000 in
  let lat1 := lat pos1 * PI / 180 in
  let lat2 := lat pos2 * PI / 180 in
  let deltaLat := (lat pos2 - lat pos1) * PI / 180 in
  let deltaLng := (lng pos2 - lng pos1) * PI / 180 in
  let a := sin (deltaLat / 2) * sin (deltaLat / 2)
           + cos lat1 * cos lat2 * sin (deltaLng / 2) * sin (deltaLng / 2) in
  let c := 2 * Js.atan2 (sqrt a) (sqrt (1 - a)) in
  R_ * c.

(** [calculateBearing(pos1, pos2)] *)
Definition calculateBearing (pos1 pos2 : LatLng) : R :=
  let lat1 := lat pos1 * PI / 180 in
  let lat2 := lat pos2 * PI / 180 in
  let deltaLng := (lng pos2 - lng pos1) * PI / 180 in
  let y := sin deltaLng * cos lat2 in
  let x := cos lat1 * sin lat2 - sin lat1 * cos lat2 * cos deltaLng in
  let bearing := Js.atan2 y x * 180 / PI in
  Js.rem (bearing + 360) 360.

(* ================================================================== *)
(** ** Coverage footprint *)

(** [getCoverageRadius(altitude)]: [altitude * 0.5 || 25]. *)
Definition getCoverageRadius (altitude : R) : R :=
  Js.orElse (altitude * 0.5) 25.

(** The footprint radius as the design document words it:
    [max(altitude * 0.5, 25)]. *)
Definition footprintRadius_spec (altitude : R) : R :=
  Rmax (altitude * 0.5) 25.

(* ================================================================== *)
(** ** The store of one call and its monad *)

(** The objects a call of [updateUAVState] can reach and write: the copy
    [updatedUAV = { ...uav }] and the route object bound to the parameter
    [searchArea] ([None] when the caller found no assigned route). *)
Record Store : Type := mkStore {
  updatedUAV : UAV;
  searchArea : option SearchArea
}.

Module Sim.

Definition M (A : Type) : Type := Store -> A * Store.

Definition ret {A : Type} (a : A) : M A := fun s => (a, s).

Definition bind {A B : Type} (c : M A) (k : A -> M B) : M B :=
  fun s => let (a, s') := c s in k a s'.

(** Read the copy. *)
Definition get : M UAV := fun s => (updatedUAV s, s).

(** [updatedUAV.f = v] *)
Definition assign (f : UAV -> UAV) : M unit :=
  fun s => (tt, mkStore (f (updatedUAV s)) (searchArea s)).

(** Read the route object. *)
Definition route : M (option SearchArea) := fun s => (searchArea s, s).

Definition skip : M unit := ret tt.

End Sim.

Notation "x <- c ;; k" := (Sim.bind c (fun x => k))
  (at level 61, c at next level, right associativity).
Notation "c ;; k" := (Sim.bind c (fun _ => k))
  (at level 61, right associativity).

(* ================================================================== *)
(** ** updateUAVState *)

(** [updatedUAV.currentWaypointIndex < n], false on [undefined]. *)
Definition indexBelow (i : option nat) (n : nat) : bool :=
  match i with
  | Some k => (k <? n)%nat
  | None => false
  end.

(** [updatedUAV.currentWaypointIndex >= n], false on [undefined]. *)
Definition indexAtLeast (i : option nat) (n : nat) : bool :=
  match i with
  | Some k => (n <=? k)%nat
  | None => false
  end.

(** [updatedUAV.currentWaypointIndex > 0] *)
Definition indexPositive (i : option nat) : bool :=
  match i with
  | Some k => (0 <? k)%nat
  | None => false
  end.

(** [!uav.altitudeHistorySampleCounter]: true on [undefined] and on [0]. *)
Definition counterFalsy (c : option nat) : bool :=
  match c with
  | Some (S _) => false
  | _ => true
  end.

(** [updatedUAV.altitudeHistorySampleCounter % 5 === 0] *)
Definition counterDue (c : option nat) : bool :=
  match c with
  | Some k => (k mod 5 =? 0)%nat
  | None => false
  end.

(** Lines 221-224 and 313-316: append the copy's position to [flightPath]
    and keep the last 100 entries. *)
Definition addToFlightPath (uav : UAV) : Sim.M unit :=
  u <- Sim.get ;;
  Sim.assign (set_flightPath (Some (Js.orEmpty (flightPath uav) ++ [position u]))) ;;
  u <- Sim.get ;;
  if (100 <? List.length (Js.orEmpty (flightPath u)))%nat
  then Sim.assign (set_flightPath (Some (Js.sliceLast 100 (Js.orEmpty (flightPath u)))))
  else Sim.skip.

(** Lines 228-241 and 319-332: step [altitudeHistorySampleCounter], and
    when the stepped counter is a multiple of 5 append the copy's altitude
    to [altitudeHistory], keeping the last 8 entries. *)
Definition trackAltitudeHistory (uav : UAV) : Sim.M unit :=
  (if counterFalsy (altitudeHistorySampleCounter uav)
   then Sim.assign (set_altitudeHistorySampleCounter (Some 0%nat))
   else Sim.assign (set_altitudeHistorySampleCounter
                      (option_map S (altitudeHistorySampleCounter uav)))) ;;
  u <- Sim.get ;;
  if counterDue (altitudeHistorySampleCounter u)
  then
    Sim.assign (set_altitudeHistory
                  (Some (Js.orEmpty (altitudeHistory uav) ++ [altitude u]))) ;;
    u <- Sim.get ;;
    if (8 <? List.length (Js.orEmpty (altitudeHistory u)))%nat
    then Sim.assign (set_altitudeHistory
                       (Some (Js.sliceLast 8 (Js.orEmpty (altitudeHistory u)))))
    else Sim.skip
  else
    Sim.assign (set_altitudeHistory (Some (Js.orEmpty (altitudeHistory uav)))).

(** Lines 245-272: record a coverage sample when past the first waypoint
    and far enough from the last sample. *)
Definition addCoveragePoint : Sim.M unit :=
  u <- Sim.get ;;
  if indexPositive (currentWaypointIndex u)
  then
    let lastCoveragePoint := Js.lastElement (Js.orEmpty (coveragePoints u)) in
    let lastPosition := option_map samplePosition lastCoveragePoint in
    let coverageRadius := getCoverageRadius (altitude u) in
    let rectangleWidth := coverageRadius * 2 in
    let spacing := rectangleWidth * 0.7 in
    let shouldAddCoveragePoint :=
      match lastPosition with
      | None => true
      | Some p => Js.geb (calculateDistance (position u) p) spacing
      end in
    if shouldAddCoveragePoint
    then Sim.assign (fun v =>
           set_coveragePoints
             (Some (Js.orEmpty (coveragePoints v)
                    ++ [Sample (position v) (altitude v)])) v)
    else Sim.skip
  else Sim.skip.

(** Lines 153-285: the body of [if (uav.status === 'searching' && searchArea)]. *)
Definition searchingBranch (uav : UAV) (area : SearchArea) (deltaTime : R)
  : Sim.M unit :=
  let targetSpeedMs := Js.orDefault (targetSpeed uav) 50 / 3.6 in
  let targetAltitude := Js.orDefault (targetAltitude uav) 80 in
  (match currentWaypointIndex uav with
   | None =>
       Sim.assign (set_currentWaypointIndex (Some 0%nat)) ;;
       Sim.assign (set_speed targetSpeedMs) ;;
       Sim.assign (set_altitude targetAltitude)
   | Some i =>
       Sim.assign (set_currentWaypointIndex (Some i)) ;;
       Sim.assign (set_speed targetSpeedMs) ;;
       let currentAltitude := Js.orElse (altitude uav) targetAltitude in
       let altitudeDifference := targetAltitude - currentAltitude in
       let climbRate := 2 in
       if Js.ltb (Rabs altitudeDifference) (climbRate * deltaTime)
       then Sim.assign (set_altitude targetAltitude)
       else if Js.ltb 0 altitudeDifference
       then Sim.assign (set_altitude (currentAltitude + climbRate * deltaTime))
       else Sim.assign (set_altitude (currentAltitude - climbRate * deltaTime))
   end) ;;
  let waypoints := Js.orEmpty (bounds area) in
  Sim.assign (set_coveragePoints (Some (Js.orEmpty (coveragePoints uav)))) ;;
  u <- Sim.get ;;
  if (0 <? List.length waypoints)%nat
     && indexBelow (currentWaypointIndex u) (List.length waypoints)
  then
    match nth_error waypoints
            (match currentWaypointIndex u with Some i => i | None => 0%nat end)
    with
    | None => Sim.skip (* not reached: the index is below waypoints.length *)
    | Some targetWaypoint =>
        let distance := calculateDistance (position uav) targetWaypoint in
        (if Js.ltb distance 20
         then Sim.assign (fun v =>
                set_currentWaypointIndex
                  (option_map S (currentWaypointIndex v)) v)
         else
           Sim.assign (set_direction (calculateBearing (position uav) targetWaypoint)) ;;
           Sim.assign (fun v =>
             set_position
               (calculateNewPosition (position uav) (direction v)
                                     (Js.orElse (speed v) 15) deltaTime) v)) ;;
        addToFlightPath uav ;;
        trackAltitudeHistory uav ;;
        addCoveragePoint ;;
        Sim.assign (set_battery (Rmax 0 (battery uav - 0.1 * deltaTime))) ;;
        u <- Sim.get ;;
        if indexAtLeast (currentWaypointIndex u) (List.length waypoints)
        then Sim.assign (set_status "returning"%string)
        else Sim.skip
    end
  else Sim.skip (* the else-if only logs *).

(** Lines 287-341: the body of [else if (uav.status === 'returning')]. *)
Definition returningBranch (uav : UAV) (deltaTime : R) : Sim.M unit :=
  match startPosition uav with
  | Some start =>
      let distance := calculateDistance (position uav) start in
      (if Js.ltb distance 20
       then
         Sim.assign (set_status "idle"%string) ;;
         Sim.assign (set_speed 0) ;;
         Sim.assign (set_altitude 0) ;;
         Sim.assign (set_position start)
       else
         let returnSpeedMs := (Js.orDefault (targetSpeed uav) 50 / 3.6) * 1.5 in
         Sim.assign (set_direction (calculateBearing (position uav) start)) ;;
         Sim.assign (set_speed returnSpeedMs) ;;
         Sim.assign (set_altitude
                       (Js.orElse (altitude uav)
                                  (Js.orDefault (targetAltitude uav) 80))) ;;
         Sim.assign (fun v =>
           set_position
             (calculateNewPosition (position uav) (direction v) (speed v)
                                   deltaTime) v) ;;
         addToFlightPath uav ;;
         trackAltitudeHistory uav) ;;
      Sim.assign (set_battery (Rmax 0 (battery uav - 0.08 * deltaTime)))
  | None =>
      Sim.assign (set_status "idle"%string) ;;
      Sim.assign (set_speed 0)
  end.

(** Lines 343-345: the body of [else if (uav.status === 'idle')]. *)
Definition idleBranch (uav : UAV) (deltaTime : R) : Sim.M unit :=
  Sim.assign (set_speed 0) ;;
  Sim.assign (set_battery (Rmax 0 (battery uav - 0.01 * deltaTime))).

(** The statements of [updateUAVState] after [const updatedUAV = { ...uav }]. *)
Definition updateUAVStateBody (uav : UAV) (deltaTime : R) : Sim.M unit :=
  if negb (isOnline uav) || (status uav =? "offline")%string
  then Sim.skip
  else if negb (isMock uav)
  then Sim.skip
  else
    area <- Sim.route ;;
    match (status uav =? "searching")%string, area with
    | true, Some a => searchingBranch uav a deltaTime
    | _, _ =>
        if (status uav =? "returning")%string then returningBranch uav deltaTime
        else if (status uav =? "idle")%string then idleBranch uav deltaTime
        else Sim.skip
    end.

(** One call, started on the fresh copy, with the store it leaves. *)
Definition runUpdateUAVState
    (uav : UAV) (area : option SearchArea) (deltaTime : R) : Store :=
  snd (updateUAVStateBody uav deltaTime (mkStore uav area)).

(** [updateUAVState(uav, searchArea, deltaTime)]: the copy is returned. *)
Definition updateUAVState
    (uav : UAV) (area : option SearchArea) (deltaTime : R) : UAV :=
  updatedUAV (runUpdateUAVState uav area deltaTime).

(* ================================================================== *)
(** ** Frame conditions on the store *)

(** A computation that leaves the route object as it found it. *)
Definition preservesRoute {A : Type} (c : Sim.M A) : Prop :=
  forall s, searchArea (snd (c s)) = searchArea s.

(* ================================================================== *)
(** ** A mission on a meridian *)

Module Mission.

(** Where [App.js] places the first vehicle. *)
Definition home : LatLng := mkLatLng 39.622827 (-104.876670).

(** A waypoint 0.01 degrees of latitude north of [home]. *)
Definition north : LatLng := mkLatLng 39.632827 (-104.876670).

(** A mock vehicle as [App.js] creates it and [handleStartSearch] starts
    it, with the operator's set points at 54 km/h and 40 m. *)
Definition started : UAV :=
  {| uav_id := "1"; uav_name := "Mock UAV 1";
     position := home; status := "searching";
     battery := 100; speed := 0; altitude := 0; direction := 0;
     isSearching := true; targetFound := false;
     flightPath := Some []; coveragePoints := Some [];
     isOnline := true; isMock := true;
     targetSpeed := Some 54; targetAltitude := Some 40;
     currentWaypointIndex := None; startPosition := Some home;
     altitudeHistory := None; altitudeHistorySampleCounter := None |}.

(** The route [handleDefineSearchArea] and [handleStartSearch] leave:
    first waypoint at [home], second at [north]. *)
Definition route : SearchArea :=
  {| area_id := "area-1"; bounds := Some [home; north];
     area_status := "active"; assignedUAV := Some "1"%string |}.

(** The simulation loop: one call per second. *)
Fixpoint ticks (n : nat) (uav : UAV) : UAV :=
  match n with
  | O => uav
  | S k => updateUAVState (ticks k uav) (Some route) 1
  end.

Definition step1 : LatLng := mkLatLng (39.622827 + 15 / 111000) (-104.876670).
Definition step2 : LatLng := mkLatLng (39.622827 + 30 / 111000) (-104.876670).

(** The vehicle after one, two and three calls. *)
Definition after1 : UAV :=
  {| uav_id := "1"; uav_name := "Mock UAV 1";
     position := home; status := "searching";
     battery := 99.9; speed := 15; altitude := 40; direction := 0;
     isSearching := true; targetFound := false;
     flightPath := Some [home];
     coveragePoints := Some [Sample home 40];
     isOnline := true; isMock := true;
     targetSpeed := Some 54; targetAltitude := Some 40;
     currentWaypointIndex := Some 1%nat; startPosition := Some home;
     altitudeHistory := Some [40];
     altitudeHistorySampleCounter := Some 0%nat |}.

Definition after2 : UAV :=
  {| uav_id := "1"; uav_name := "Mock UAV 1";
     position := step1; status := "searching";
     battery := 99.8; speed := 15; altitude := 40; direction := 0;
     isSearching := true; targetFound := false;
     flightPath := Some [home; step1];
     coveragePoints := Some [Sample home 40];
     isOnline := true; isMock := true;
     targetSpeed := Some 54; targetAltitude := Some 40;
     currentWaypointIndex := Some 1%nat; startPosition := Some home;
     altitudeHistory := Some [40; 40];
     altitudeHistorySampleCounter := Some 0%nat |}.

Definition after3 : UAV :=
  {| uav_id := "1"; uav_name := "Mock UAV 1";
     position := step2; status := "searching";
     battery := 99.7; speed := 15; altitude := 40; direction := 0;
     isSearching := true; targetFound := false;
     flightPath := Some [home; step1; step2];
     coveragePoints := Some [Sample home 40; Sample step2 40];
     isOnline := true; isMock := true;
     targetSpeed := Some 54; targetAltitude := Some 40;
     currentWaypointIndex := Some 1%nat; startPosition := Some home;
     altitudeHistory := Some [40; 40; 40];
     altitudeHistorySampleCounter := Some 0%nat |}.

End Mission.

Module Scenario.

(** The started vehicle before any route is assigned to it. *)
Definition unassigned : UAV := Mission.started.

(** A vehicle that has passed both waypoints of [Mission.route] and that
    [handleStartUpdateRoute] has put back to searching while the operator
    has not yet appended a waypoint. *)
Definition resumed : UAV :=
  set_status "searching"
    (set_currentWaypointIndex (Some 2%nat)
       (set_position Mission.north Mission.after1)).

(** A vehicle on its first waypoint, index already defined. *)
Definition atFirst : UAV :=
  set_currentWaypointIndex (Some 0%nat) Mission.started.

(** A vehicle on the last waypoint of [Mission.route]. *)
Definition atLast : UAV := set_position Mission.north Mission.after1.

(** A vehicle that is returning while still at [home]. *)
Definition cancelled : UAV := set_status "returning" Mission.after1.

(** A vehicle whose status is offline. *)
Definition lost : UAV := set_status "offline" Mission.after1.

End Scenario.

(* ================================================================== *)
(** ** Polygons and coverage areas *)

(** The crossing test of [isPointInPolygon] for the edge from vertex [vj]
    to vertex [vi]; the second conjunct is only evaluated when the first
    holds, which is when it divides by a non-zero [yj - yi]. *)
Definition edgeCrosses (point vi vj : LatLng) : bool :=
  let xi := lat vi in
  let yi := lng vi in
  let xj := lat vj in
  let yj := lng vj in
  negb (Bool.eqb (Js.ltb (lng point) yi) (Js.ltb (lng point) yj))
  && Js.ltb (lat point) ((xj - xi) * (lng point - yi) / (yj - yi) + xi).

(** The loop of [isPointInPolygon] from index [i] on: [vj] is
    [polygon[j]], [rest] the vertices from [polygon[i]] on. *)
Fixpoint isPointInPolygonFrom
    (point vj : LatLng) (rest : list LatLng) (inside : bool) : bool :=
  match rest with
  | [] => inside
  | vi :: rest' =>
      isPointInPolygonFrom point vi rest'
        (if edgeCrosses point vi vj then negb inside else inside)
  end.

(** [isPointInPolygon(point, polygon)]: the loop starts with
    [j = polygon.length - 1]; on an empty polygon it does not run. *)
Definition isPointInPolygon (point : LatLng) (polygon : list LatLng) : bool :=
  match Js.lastElement polygon with
  | Some vj => isPointInPolygonFrom point vj polygon false
  | None => false
  end.

(** [generateCoverageRectangle(center, widthMeters, heightMeters)] *)
Definition generateCoverageRectangle
    (center : LatLng) (widthMeters heightMeters : R) : list LatLng :=
  let latOffset := (heightMeters / 2) / 111000 in
  let lngOffset :=
    (widthMeters / 2) / (111000 * cos (lat center * PI / 180)) in
  [ {| lat := lat center + latOffset; lng := lng center - lngOffset |};
    {| lat := lat center + latOffset; lng := lng center + lngOffset |};
    {| lat := lat center - latOffset; lng := lng center + lngOffset |};
    {| lat := lat center - latOffset; lng := lng center - lngOffset |} ].

(** [generateCoverageCircle(center, radiusMeters, numPoints)]; the third
    parameter is not used. *)
Definition generateCoverageCircle
    (center : LatLng) (radiusMeters : R) (numPoints : nat) : list LatLng :=
  let sideLength := radiusMeters * 2 in
  generateCoverageRectangle center sideLength sideLength.

(** [calculateCoverageArea(coveragePoints, radiusMeters)], in square
    kilometers. *)
Definition calculateCoverageArea
    {A : Type} (coveragePoints : option (list A)) (radiusMeters : R) : R :=
  match coveragePoints with
  | None => 0
  | Some ps =>
      if (List.length ps =? 0)%nat then 0
      else
        let areaPerPoint := PI * radiusMeters ^ 2 in
        let totalAreaM2 := areaPerPoint * INR (List.length ps) in
        let totalAreaKm2 := totalAreaM2 / 1000000 in
        totalAreaKm2
  end.

(** The messages of [generateSurvivorMessage]. *)
Definition survivorMessages : list string :=
  [ "Help! We are trapped in the building.";
    "We have 3 people here, one is injured.";
    "Water is running low, please hurry.";
    "Can you see us? We're on the roof.";
    "Thank you for finding us!";
    "We need medical assistance immediately.";
    "The building is unstable, please be careful." ]%string.

(** [generateSurvivorMessage()], with the value of [Math.random()] as a
    parameter; [None] is [undefined], an index outside the array. *)
Definition generateSurvivorMessage (random : R) : option string :=
  let index := Int_part (random * INR (List.length survivorMessages)) in
  if (index <? 0)%Z then None
  else nth_error survivorMessages (Z.to_nat index).

(** [TelemetryDisplay.js], lines 19-20: the covered area shown for a
    vehicle. *)
Definition telemetryCoverageArea (uav : UAV) : R :=
  let coverageRadius := getCoverageRadius (altitude uav) in
  calculateCoverageArea (Some (Js.orEmpty (coveragePoints uav))) coverageRadius.

(* ================================================================== *)
(** ** The callers in App.js *)

Definition set_isSearching (v : bool) (u : UAV) : UAV :=
  mkUAV (uav_id u) (uav_name u) (position u) (status u) (battery u) (speed u)
        (altitude u) (direction u) v (targetFound u)
        (flightPath u) (coveragePoints u) (isOnline u) (isMock u)
        (targetSpeed u) (targetAltitude u) (currentWaypointIndex u)
        (startPosition u) (altitudeHistory u) (altitudeHistorySampleCounter u).

Definition set_startPosition (v : option LatLng) (u : UAV) : UAV :=
  mkUAV (uav_id u) (uav_name u) (position u) (status u) (battery u) (speed u)
        (altitude u) (direction u) (isSearching u) (targetFound u)
        (flightPath u) (coveragePoints u) (isOnline u) (isMock u)
        (targetSpeed u) (targetAltitude u) (currentWaypointIndex u)
        v (altitudeHistory u) (altitudeHistorySampleCounter u).

Definition set_bounds (v : option (list LatLng)) (a : SearchArea) : SearchArea :=
  mkSearchArea (area_id a) v (area_status a) (assignedUAV a).

Module App.

(** [area.assignedUAV === id] *)
Definition assignedTo (id : string) (area : SearchArea) : bool :=
  match assignedUAV area with
  | Some u => (u =? id)%string
  | None => false
  end.

(** [xs.findIndex(p)]; [None] is [-1]. *)
Fixpoint findIndex {A : Type} (p : A -> bool) (xs : list A) : option nat :=
  match xs with
  | [] => None
  | x :: rest => if p x then Some 0%nat else option_map S (findIndex p rest)
  end.

(** [ys = [...xs]; ys[k] = v] for [k] inside the array. *)
Fixpoint replaceAt {A : Type} (k : nat) (v : A) (xs : list A) : list A :=
  match xs, k with
  | [], _ => []
  | _ :: rest, O => v :: rest
  | x :: rest, S k' => x :: replaceAt k' v rest
  end.

(** [handleStartSearch], lines 414-423: the object built for the vehicle
    that starts. *)
Definition startSearch (uav : UAV) : UAV :=
  set_startPosition (Some (position uav))
    (set_isSearching true (set_status "searching" uav)).

(** [handleCancelSearch], lines 433-443. *)
Definition cancelSearch (uav : UAV) : UAV :=
  set_isSearching false (set_status "returning" uav).

(** [handleStartUpdateRoute], lines 591-597: a returning vehicle resumes
    searching. *)
Definition resumeSearch (uav : UAV) : UAV := set_status "searching" uav.

(** [handleAddWaypoint], lines 500-522: the updater passed to
    [setSearchAreas] while a route is being updated. *)
Definition appendWaypoint
    (selectedId : string) (newWaypoint : LatLng) (prevAreas : list SearchArea)
  : list SearchArea :=
  let isActive := fun area =>
    assignedTo selectedId area && (area_status area =? "active")%string in
  match findIndex isActive prevAreas with
  | None => prevAreas
  | Some activeAreaIndex =>
      match nth_error prevAreas activeAreaIndex with
      | None => prevAreas (* not reached: findIndex returns an index of the array *)
      | Some activeArea =>
          let existingBounds := Js.orEmpty (bounds activeArea) in
          let updatedBounds := existingBounds ++ [newWaypoint] in
          replaceAt activeAreaIndex
                    (set_bounds (Some updatedBounds) activeArea) prevAreas
      end
  end.

(** The simulation loop, lines 639-646: every vehicle is updated with the
    first route assigned to it and a time step of one second. *)
Definition simulationStep
    (prevUAVs : list UAV) (searchAreas : list SearchArea) : list UAV :=
  map (fun uav =>
         let assignedArea := find (assignedTo (uav_id uav)) searchAreas in
         updateUAVState uav assignedArea 1)
      prevUAVs.

End App.

(* ================================================================== *)
(** ** The callers in the components *)

(** [TelemetryDisplay.js], lines 12-16: the compass label of a heading;
    [Math.round(x)] is the floor of [x + 0.5]. *)
Definition compassLabels : list string :=
  ["N"; "NE"; "E"; "SE"; "S"; "SW"; "W"; "NW"]%string.

Definition formatDirection (degrees : R) : option string :=
  let index := Z.rem (Int_part (degrees / 45 + 0.5)) 8 in
  if (index <? 0)%Z then None
  else nth_error compassLabels (Z.to_nat index).

(** The map component, body of [coveragePoints.forEach]: the rectangle
    drawn for one coverage sample of a vehicle. *)
Definition coverageFootprint (uav : UAV) (coveragePoint : CoveragePoint)
  : list LatLng :=
  let position := samplePosition coveragePoint in
  let altitude :=
    match coveragePoint with
    | Sample _ sampleAltitude => Js.orElse sampleAltitude (altitude uav)
    | Legacy _ => altitude uav
    end in
  let radius := getCoverageRadius altitude in
  generateCoverageCircle position radius 32.

Module Cases.

(** A route whose only waypoint is [Mission.north]. *)
Definition routeNorth : SearchArea :=
  {| area_id := "area-2"; bounds := Some [Mission.north];
     area_status := "active"; assignedUAV := Some "1"%string |}.

(** The vehicle of the mission, 30 m of latitude from home, sent back. *)
Definition homeward : UAV := set_status "returning" Mission.after3.

(** A returning vehicle with no start position. *)
Definition stranded : UAV :=
  set_startPosition None (set_status "returning" Mission.after1).

End Cases.

(* ================================================================== *)
(** ** Facts about the JavaScript idioms *)

Lemma ltb_true x y : Js.ltb x y = true <-> x < y.
Proof. unfold Js.ltb; destruct (Rlt_dec x y); split; intros; auto; discriminate. Qed.

Lemma ltb_false x y : Js.ltb x y = false <-> ~ x < y.
Proof.
  unfold Js.ltb; destruct (Rlt_dec x y); split; intros; auto;
    try discriminate; tauto.
Qed.

Lemma geb_true x y : Js.geb x y = true <-> x >= y.
Proof. unfold Js.geb; destruct (Rge_dec x y); split; intros; auto; discriminate. Qed.

Lemma geb_false x y : Js.geb x y = false <-> x < y.
Proof.
  unfold Js.geb; destruct (Rge_dec x y); split; intros; auto;
    try discriminate; lra.
Qed.

Lemma orElse_nonzero x d : x <> 0 -> Js.orElse x d = x.
Proof. unfold Js.orElse, Js.isZero; destruct (Req_dec_T x 0); tauto. Qed.

Lemma orElse_zero d : Js.orElse 0 d = d.
Proof. unfold Js.orElse, Js.isZero; destruct (Req_dec_T 0 0); tauto. Qed.

Lemma sliceLast_length {A : Type} (n : nat) (xs : list A) :
  List.length (Js.sliceLast n xs) = Nat.min n (List.length xs).
Proof. unfold Js.sliceLast; rewrite length_skipn; lia. Qed.

(** Draining a non-negative charge keeps it within [0, charge]. *)
Lemma drain_bounds b r dt :
  0 <= b -> 0 < r -> 0 < dt ->
  Rmax 0 (b - r * dt) <= b /\ 0 <= Rmax 0 (b - r * dt).
Proof. intros; unfold Rmax; destruct (Rle_dec _ _); nra. Qed.

(** Draining a positive charge lowers it. *)
Lemma drain_strict b r dt :
  0 < b -> 0 < r -> 0 < dt -> Rmax 0 (b - r * dt) < b.
Proof. intros; unfold Rmax; destruct (Rle_dec _ _); nra. Qed.

(* ================================================================== *)
(** ** Running the blocks *)

(** Unfold the monad's primitives on an explicit store. *)
Ltac sim_unfold :=
  cbv [Sim.bind Sim.ret Sim.get Sim.assign Sim.route Sim.skip
       updatedUAV searchArea snd fst].

(** Project fields out of assignments. *)
Ltac uav_simpl :=
  cbn [uav_id uav_name position status battery speed altitude direction
       isSearching targetFound flightPath coveragePoints isOnline isMock
       targetSpeed targetAltitude currentWaypointIndex startPosition
       altitudeHistory altitudeHistorySampleCounter
       set_position set_status set_battery set_speed set_altitude
       set_direction set_flightPath set_coveragePoints
       set_currentWaypointIndex set_altitudeHistory
       set_altitudeHistorySampleCounter].

Lemma set_coveragePoints_same u : set_coveragePoints (coveragePoints u) u = u.
Proof. now destruct u. Qed.

Lemma addToFlightPath_run uav s :
  addToFlightPath uav s
  = (tt, mkStore
           (set_flightPath
              (Some (let fp := (Js.orEmpty (flightPath uav)
                                ++ [position (updatedUAV s)])%list in
                     if (100 <? List.length fp)%nat
                     then Js.sliceLast 100 fp else fp))
              (updatedUAV s))
           (searchArea s)).
Proof.
  unfold addToFlightPath; sim_unfold; uav_simpl.
  now destruct (_ <? _)%nat.
Qed.

(** The counter that [trackAltitudeHistory] stores. *)
Lemma trackAltitudeHistory_run uav s :
  trackAltitudeHistory uav s
  = (tt, mkStore
           (let c := if counterFalsy (altitudeHistorySampleCounter uav)
                     then Some 0%nat
                     else option_map S (altitudeHistorySampleCounter uav) in
            set_altitudeHistory
              (Some (if counterDue c
                     then let h := (Js.orEmpty (altitudeHistory uav)
                                    ++ [altitude (updatedUAV s)])%list in
                          if (8 <? List.length h)%nat
                          then Js.sliceLast 8 h else h
                     else Js.orEmpty (altitudeHistory uav)))
              (set_altitudeHistorySampleCounter c (updatedUAV s)))
           (searchArea s)).
Proof.
  unfold trackAltitudeHistory; sim_unfold.
  destruct (counterFalsy _); uav_simpl.
  all: destruct (counterDue _); uav_simpl; try (destruct (_ <? _)%nat);
    reflexivity.
Qed.

Lemma addCoveragePoint_run s :
  addCoveragePoint s
  = (tt, mkStore
           (let u := updatedUAV s in
            set_coveragePoints
              (if indexPositive (currentWaypointIndex u)
                  && match Js.lastElement (Js.orEmpty (coveragePoints u)) with
                     | None => true
                     | Some c =>
                         Js.geb (calculateDistance (position u) (samplePosition c))
                                (getCoverageRadius (altitude u) * 2 * 0.7)
                     end
               then Some (Js.orEmpty (coveragePoints u)
                          ++ [Sample (position u) (altitude u)])%list
               else coveragePoints u)
              u)
           (searchArea s)).
Proof.
  unfold addCoveragePoint; sim_unfold.
  destruct (indexPositive _); cbn [andb].
  2:{ rewrite set_coveragePoints_same; now destruct s. }
  destruct (Js.lastElement _); cbn [option_map].
  - destruct (Js.geb _ _); [reflexivity|].
    rewrite set_coveragePoints_same; now destruct s.
  - reflexivity.
Qed.

(** Replace a block by the store it leaves. *)
Ltac run_block :=
  first [ rewrite addToFlightPath_run
        | rewrite trackAltitudeHistory_run
        | rewrite addCoveragePoint_run ];
  sim_unfold; uav_simpl.

Ltac split_if :=
  match goal with
  | |- context [if ?b then _ else _] => destruct b eqn:?
  | |- context [match ?b with Some _ => _ | None => _ end] => destruct b eqn:?
  end; uav_simpl.

(** Enter [updateUAVState] past the two guards. *)
Lemma updateUAVState_guarded uav area dt :
  isOnline uav = true -> isMock uav = true -> status uav <> "offline"%string ->
  runUpdateUAVState uav area dt
  = snd (match (status uav =? "searching")%string, area with
         | true, Some a => searchingBranch uav a dt
         | _, _ =>
             if (status uav =? "returning")%string then returningBranch uav dt
             else if (status uav =? "idle")%string then idleBranch uav dt
             else Sim.skip
         end (mkStore uav area)).
Proof.
  intros Hon Hmock Hoff.
  unfold runUpdateUAVState, updateUAVStateBody.
  rewrite Hon, Hmock; cbn [negb orb].
  apply String.eqb_neq in Hoff; rewrite Hoff.
  reflexivity.
Qed.

(* ================================================================== *)
(** ** Battery *)

(** C1. For an online vehicle whose battery lies in [0,100] and a positive
    time step, the battery of the returned vehicle is at most the old
    battery and is not negative, whatever the route. *)
Theorem battery_monotone uav area deltaTime :
  isOnline uav = true ->
  0 <= battery uav <= 100 ->
  0 < deltaTime ->
  battery (updateUAVState uav area deltaTime) <= battery uav
  /\ 0 <= battery (updateUAVState uav area deltaTime).
Proof.
  intros Hon Hb Hdt.
  unfold updateUAVState, runUpdateUAVState, updateUAVStateBody.
  rewrite Hon; cbn [negb orb].
  destruct (_ =? _)%string; [sim_unfold; lra|].
  destruct (isMock uav); cbn [negb]; [|sim_unfold; lra].
  sim_unfold.
  destruct (status uav =? "searching")%string, area as [a|].
  1: unfold searchingBranch; sim_unfold;
     repeat first [run_block | split_if];
     try (apply drain_bounds; lra); lra.
  all: destruct (status uav =? "returning")%string;
    [ unfold returningBranch; sim_unfold;
      repeat first [run_block | split_if];
      try (apply drain_bounds; lra); lra | ].
  all: destruct (status uav =? "idle")%string;
    [ unfold idleBranch; sim_unfold; uav_simpl; apply drain_bounds; lra
    | sim_unfold; lra ].
Qed.

(** C8, as the code has it. An online mock vehicle whose battery lies in
    (0,100] loses charge in one call with a time step of at least one
    millisecond (the simulation loop passes one second) when it is idle,
    when it is searching on a route whose waypoint queue still has the
    waypoint its index points at (an undefined index counts as 0), and
    when it is returning with a start position.  The two bounds keep the
    drain well above the spacing of the floating-point numbers around the
    battery value. *)
Theorem battery_strictly_drains uav area deltaTime :
  isOnline uav = true ->
  isMock uav = true ->
  0 < battery uav <= 100 ->
  0.001 <= deltaTime ->
  status uav = "idle"%string
  \/ (status uav = "searching"%string
      /\ exists a,
           area = Some a
           /\ (match currentWaypointIndex uav with Some i => i | None => 0 end
               < List.length (Js.orEmpty (bounds a)))%nat)
  \/ (status uav = "returning"%string /\ startPosition uav <> None) ->
  battery (updateUAVState uav area deltaTime) < battery uav.
Proof.
  intros Hon Hmock [Hb _] Hstep Hmode.
  assert (Hdt : 0 < deltaTime) by lra.
  unfold updateUAVState.
  rewrite updateUAVState_guarded; trivial.
  2:{ intros E; rewrite E in Hmode.
      destruct Hmode as [H | [[H _] | [H _]]]; discriminate. }
  destruct Hmode as [H | [[H (a & -> & Hlt)] | [H Hstart]]]; rewrite H;
    cbn [String.eqb Ascii.eqb Bool.eqb].
  - (* idle *)
    destruct area; unfold idleBranch; sim_unfold; uav_simpl;
      apply drain_strict; lra.
  - (* searching *)
    assert (Hpos : (0 <? List.length (Js.orEmpty (bounds a)))%nat = true)
      by (apply Nat.ltb_lt; lia).
    unfold searchingBranch; sim_unfold.
    destruct (currentWaypointIndex uav) as [i|] eqn:Hi.
    + assert (HiB : (i <? List.length (Js.orEmpty (bounds a)))%nat = true)
        by (now apply Nat.ltb_lt).
      destruct (nth_error (Js.orEmpty (bounds a)) i) as [w|] eqn:Hw.
      2:{ apply nth_error_None in Hw; lia. }
      repeat first [ rewrite Hpos | rewrite HiB | rewrite Hw
                   | progress cbn [andb indexBelow]
                   | run_block | split_if ];
        apply drain_strict; lra.
    + destruct (nth_error (Js.orEmpty (bounds a)) 0) as [w|] eqn:Hw.
      2:{ apply nth_error_None in Hw; lia. }
      assert (HiB : (0 <? List.length (Js.orEmpty (bounds a)))%nat = true)
        by (now apply Nat.ltb_lt).
      uav_simpl.
      repeat first [ rewrite HiB | rewrite Hw
                   | progress cbn [andb indexBelow]
                   | run_block | split_if ];
        apply drain_strict; lra.
  - (* returning *)
    destruct (startPosition uav) as [start|] eqn:Hs; [|congruence].
    destruct area; unfold returningBranch; rewrite Hs; sim_unfold;
      repeat first [run_block | split_if]; apply drain_strict; lra.
Qed.

(* ================================================================== *)
(** ** Guards *)

(** C9. A vehicle that is not online, or whose status is offline, or that
    is not a mock vehicle is returned with every field unchanged, for every
    route and time step. *)
Theorem guard_returns_unchanged uav area deltaTime :
  isOnline uav = false \/ status uav = "offline"%string \/ isMock uav = false ->
  updateUAVState uav area deltaTime = uav.
Proof.
  intros Hguard.
  unfold updateUAVState, runUpdateUAVState, updateUAVStateBody.
  destruct Hguard as [H | [H | H]].
  - rewrite H; reflexivity.
  - rewrite H, String.eqb_refl, orb_true_r; reflexivity.
  - rewrite H; destruct (negb (isOnline uav) || _); reflexivity.
Qed.

(* ================================================================== *)
(** ** Returning *)

(** C4. An online mock vehicle that is returning, has a start position and
    is less than 20 m from it is returned exactly at the start position,
    with speed 0, altitude 0 and status idle. *)
Theorem return_snap uav area deltaTime start :
  isOnline uav = true ->
  isMock uav = true ->
  status uav = "returning"%string ->
  startPosition uav = Some start ->
  calculateDistance (position uav) start < 20 ->
  let uav' := updateUAVState uav area deltaTime in
  position uav' = start /\ speed uav' = 0 /\ altitude uav' = 0
  /\ status uav' = "idle"%string.
Proof.
  intros Hon Hmock Hst Hstart Hd.
  apply ltb_true in Hd.
  cbv zeta; unfold updateUAVState.
  rewrite updateUAVState_guarded; trivial; [|rewrite Hst; discriminate].
  rewrite Hst; cbn [String.eqb Ascii.eqb Bool.eqb].
  destruct area; unfold returningBranch; rewrite Hstart, Hd;
    sim_unfold; uav_simpl; auto.
Qed.

(* ================================================================== *)
(** ** Searching *)

(** C3. An online mock vehicle that is searching with a defined index [i]
    below the length of the route's bounds, and that is less than 20 m from
    [bounds[i]], gets index [i + 1] and keeps its position in that call. *)
Theorem waypoint_advance uav a deltaTime i w :
  isOnline uav = true ->
  isMock uav = true ->
  status uav = "searching"%string ->
  currentWaypointIndex uav = Some i ->
  nth_error (Js.orEmpty (bounds a)) i = Some w ->
  calculateDistance (position uav) w < 20 ->
  let uav' := updateUAVState uav (Some a) deltaTime in
  currentWaypointIndex uav' = Some (S i) /\ position uav' = position uav.
Proof.
  intros Hon Hmock Hst Hi Hw Hd.
  apply ltb_true in Hd.
  assert (Hlt : (i < List.length (Js.orEmpty (bounds a)))%nat)
    by (apply nth_error_Some; congruence).
  assert (Hpos : (0 <? List.length (Js.orEmpty (bounds a)))%nat = true)
    by (apply Nat.ltb_lt; lia).
  assert (HiB : (i <? List.length (Js.orEmpty (bounds a)))%nat = true)
    by (now apply Nat.ltb_lt).
  cbv zeta; unfold updateUAVState.
  rewrite updateUAVState_guarded; trivial; [|rewrite Hst; discriminate].
  rewrite Hst; cbn [String.eqb Ascii.eqb Bool.eqb].
  unfold searchingBranch; rewrite Hi; sim_unfold.
  repeat first [ rewrite Hpos | rewrite HiB | rewrite Hw | rewrite Hd
               | progress cbn [andb indexBelow option_map]
               | run_block | split_if ];
    auto.
Qed.

(** C2, as the code has it. The transition to returning happens in the
    call that advances the index past the last waypoint: an online mock
    vehicle that is searching with index [i], where [i + 1] is the length
    of the route's bounds, and that is less than 20 m from [bounds[i]], is
    returned with index [bounds.length] and status returning. *)
Theorem completion_returns uav a deltaTime i w :
  isOnline uav = true ->
  isMock uav = true ->
  status uav = "searching"%string ->
  currentWaypointIndex uav = Some i ->
  S i = List.length (Js.orEmpty (bounds a)) ->
  nth_error (Js.orEmpty (bounds a)) i = Some w ->
  calculateDistance (position uav) w < 20 ->
  let uav' := updateUAVState uav (Some a) deltaTime in
  currentWaypointIndex uav' = Some (List.length (Js.orEmpty (bounds a)))
  /\ status uav' = "returning"%string.
Proof.
  intros Hon Hmock Hst Hi Hlen Hw Hd.
  apply ltb_true in Hd.
  assert (Hpos : (0 <? List.length (Js.orEmpty (bounds a)))%nat = true)
    by (apply Nat.ltb_lt; lia).
  assert (HiB : (i <? List.length (Js.orEmpty (bounds a)))%nat = true)
    by (apply Nat.ltb_lt; lia).
  assert (Hge : (List.length (Js.orEmpty (bounds a)) <=? S i)%nat = true)
    by (apply Nat.leb_le; lia).
  cbv zeta; unfold updateUAVState.
  rewrite updateUAVState_guarded; trivial; [|rewrite Hst; discriminate].
  rewrite Hst; cbn [String.eqb Ascii.eqb Bool.eqb].
  unfold searchingBranch; rewrite Hi; sim_unfold.
  repeat first [ rewrite Hpos | rewrite HiB | rewrite Hw | rewrite Hd
               | rewrite Hge
               | progress cbn [andb indexBelow indexAtLeast option_map]
               | run_block | split_if ];
    rewrite <- ?Hlen; auto.
Qed.

(* ================================================================== *)
(** ** The route object is only read *)

Section RouteFrame.

Context {A B : Type}.

Lemma preserves_ret (a : A) : preservesRoute (Sim.ret a).
Proof. now intros s. Qed.

Lemma preserves_bind (c : Sim.M A) (k : A -> Sim.M B) :
  preservesRoute c -> (forall a, preservesRoute (k a)) ->
  preservesRoute (Sim.bind c k).
Proof.
  intros Hc Hk s; unfold Sim.bind.
  specialize (Hc s); destruct (c s) as [a s']; cbn [snd] in Hc.
  now rewrite Hk.
Qed.

End RouteFrame.

Lemma preserves_get : preservesRoute Sim.get.
Proof. now intros s. Qed.

Lemma preserves_route : preservesRoute Sim.route.
Proof. now intros s. Qed.

Lemma preserves_skip : preservesRoute Sim.skip.
Proof. now intros s. Qed.

Lemma preserves_assign f : preservesRoute (Sim.assign f).
Proof. now intros s. Qed.

Create HintDb route_frame.

#[local] Hint Resolve preserves_get preserves_route preserves_skip
  preserves_assign : route_frame.

(** Walk a block: binds, branches, then the primitives. *)
Ltac route_frame :=
  repeat first
    [ solve [ auto with route_frame ]
    | progress cbv zeta
    | apply preserves_bind; [| intros ? ]
    | match goal with
      | |- preservesRoute (if ?b then _ else _) => destruct b
      | |- preservesRoute (match ?x with Some _ => _ | None => _ end) =>
          destruct x
      end ].

Lemma addToFlightPath_preserves uav : preservesRoute (addToFlightPath uav).
Proof. unfold addToFlightPath; route_frame. Qed.

Lemma trackAltitudeHistory_preserves uav :
  preservesRoute (trackAltitudeHistory uav).
Proof. unfold trackAltitudeHistory; route_frame. Qed.

Lemma addCoveragePoint_preserves : preservesRoute addCoveragePoint.
Proof. unfold addCoveragePoint; cbv zeta; route_frame. Qed.

#[local] Hint Resolve addToFlightPath_preserves trackAltitudeHistory_preserves
  addCoveragePoint_preserves : route_frame.

Lemma searchingBranch_preserves uav a dt :
  preservesRoute (searchingBranch uav a dt).
Proof. unfold searchingBranch; cbv zeta; route_frame. Qed.

Lemma returningBranch_preserves uav dt : preservesRoute (returningBranch uav dt).
Proof. unfold returningBranch; cbv zeta; route_frame. Qed.

Lemma idleBranch_preserves uav dt : preservesRoute (idleBranch uav dt).
Proof. unfold idleBranch; route_frame. Qed.

#[local] Hint Resolve searchingBranch_preserves returningBranch_preserves
  idleBranch_preserves : route_frame.

Lemma updateUAVStateBody_preserves uav dt :
  preservesRoute (updateUAVStateBody uav dt).
Proof. unfold updateUAVStateBody; route_frame. Qed.

(** C10. For every vehicle, route and time step, the route object the call
    leaves in the store is the one it was given: bounds, status and
    assigned vehicle are untouched. *)
Theorem route_not_mutated uav area deltaTime :
  searchArea (runUpdateUAVState uav area deltaTime) = area.
Proof.
  unfold runUpdateUAVState.
  now rewrite updateUAVStateBody_preserves.
Qed.

(* ================================================================== *)
(** ** Geodesy on a meridian *)

Lemma PI_bounds : 3 < PI < 3.5.
Proof.
  split.
  - pose proof PI2_3_2; lra.
  - destruct (PI_ineq 1) as [_ H].
    unfold sum_f_R0, tg_alt, PI_tg in H; simpl in H; lra.
Qed.

Lemma atan2_right y x : 0 < x -> Js.atan2 y x = atan (y / x).
Proof. intros Hx; unfold Js.atan2; destruct (Rlt_dec 0 x); tauto. Qed.

Lemma trunc_1 : Js.trunc 1 = 1%Z.
Proof.
  unfold Js.trunc; destruct (Rle_dec 0 1); [|lra].
  symmetry; apply Int_part_spec; simpl; lra.
Qed.

(** The haversine distance from a point to itself. *)
Lemma calculateDistance_self p : calculateDistance p p = 0.
Proof.
  unfold calculateDistance; cbv zeta.
  replace ((lat p - lat p) * PI / 180 / 2) with 0 by (unfold Rdiv; ring).
  replace ((lng p - lng p) * PI / 180 / 2) with 0 by (unfold Rdiv; ring).
  rewrite sin_0, !Rmult_0_r, Rplus_0_r, Rminus_0_r, sqrt_0, sqrt_1.
  rewrite atan2_right by lra.
  replace (0 / 1) with 0 by lra.
  rewrite atan_0; ring.
Qed.

(** Along a meridian, going north, the haversine distance is the arc. *)
Lemma calculateDistance_north p q :
  lng q = lng p ->
  0 <= lat q - lat p < 180 ->
  calculateDistance p q = 6371000 * ((lat q - lat p) * PI / 180).
Proof.
  intros Hlng Hlat.
  pose proof PI_bounds as HPI.
  unfold calculateDistance; cbv zeta.
  rewrite Hlng.
  replace ((lng p - lng p) * PI / 180 / 2) with 0 by (unfold Rdiv; ring).
  set (h := (lat q - lat p) * PI / 180 / 2).
  assert (Hh : 0 <= h < PI / 2) by (unfold h; split; nra).
  rewrite sin_0, !Rmult_0_r, Rplus_0_r.
  assert (Hsin : 0 <= sin h) by (apply sin_ge_0; lra).
  assert (Hcos : 0 < cos h) by (apply cos_gt_0; lra).
  rewrite sqrt_square by assumption.
  replace (1 - sin h * sin h) with (cos h * cos h)
    by (pose proof (sin2_cos2 h) as E; unfold Rsqr in E; lra).
  rewrite sqrt_square by lra.
  rewrite atan2_right by assumption.
  change (sin h / cos h) with (tan h).
  rewrite atan_tan by lra.
  unfold h; field.
Qed.

(** The haversine distance does not depend on the order of the points. *)
Lemma calculateDistance_sym p q : calculateDistance p q = calculateDistance q p.
Proof.
  unfold calculateDistance; cbv zeta.
  replace ((lat p - lat q) * PI / 180 / 2)
    with (- ((lat q - lat p) * PI / 180 / 2)) by (unfold Rdiv; ring).
  replace ((lng p - lng q) * PI / 180 / 2)
    with (- ((lng q - lng p) * PI / 180 / 2)) by (unfold Rdiv; ring).
  rewrite !sin_neg.
  do 3 f_equal; [f_equal|f_equal; f_equal]; ring.
Qed.

(** The initial bearing to a point further north on the same meridian. *)
Lemma calculateBearing_north p q :
  lng q = lng p ->
  0 < lat q - lat p < 180 ->
  calculateBearing p q = 0.
Proof.
  intros Hlng Hlat.
  pose proof PI_bounds as HPI.
  unfold calculateBearing; cbv zeta.
  rewrite Hlng.
  replace ((lng p - lng p) * PI / 180) with 0 by (unfold Rdiv; ring).
  rewrite sin_0, cos_0, Rmult_0_l, Rmult_1_r.
  replace (cos (lat p * PI / 180) * sin (lat q * PI / 180)
           - sin (lat p * PI / 180) * cos (lat q * PI / 180))
    with (sin ((lat q - lat p) * PI / 180)).
  2:{ replace ((lat q - lat p) * PI / 180)
        with (lat q * PI / 180 - lat p * PI / 180) by (unfold Rdiv; ring).
      rewrite sin_minus; ring. }
  rewrite atan2_right.
  2:{ apply sin_gt_0; nra. }
  unfold Rdiv at 2; rewrite Rmult_0_l, atan_0.
  unfold Js.rem.
  replace ((0 * 180 / PI + 360) / 360) with 1 by (field; lra).
  rewrite trunc_1.
  field; lra.
Qed.

(** One step due north. *)
Lemma calculateNewPosition_north p v dt :
  calculateNewPosition p 0 v dt
  = {| lat := lat p + v * dt / 111000; lng := lng p |}.
Proof.
  unfold calculateNewPosition; cbv zeta.
  replace (0 * PI / 180) with 0 by (unfold Rdiv; ring).
  rewrite sin_0, cos_0.
  f_equal; unfold Rdiv; ring.
Qed.

(* ================================================================== *)
(** ** The mission on a meridian, call by call *)

Lemma orDefault_some x d : x <> 0 -> Js.orDefault (Some x) d = x.
Proof. intros; cbn [Js.orDefault]; now apply orElse_nonzero. Qed.

(** Normalise the operator set points, the distances and the bearing of
    the mission. *)
Ltac mission_norm :=
  cbn [lat lng Mission.home Mission.north];
  rewrite ?orDefault_some by lra;
  rewrite ?orElse_nonzero by lra;
  rewrite ?calculateDistance_self.

Lemma ltb_yes x y : x < y -> Js.ltb x y = true.
Proof. apply ltb_true. Qed.

Lemma ltb_no x y : y <= x -> Js.ltb x y = false.
Proof. intros; apply ltb_false; lra. Qed.

Lemma geb_yes x y : y <= x -> Js.geb x y = true.
Proof. intros; apply geb_true; lra. Qed.

Lemma geb_no x y : x < y -> Js.geb x y = false.
Proof. apply geb_false. Qed.

Lemma Rabs_0_lt x : 0 < x -> Rabs (40 - 40) < x.
Proof. intros; replace (40 - 40) with 0 by lra; rewrite Rabs_R0; lra. Qed.

Lemma drain_value b r dt : 0 <= b - r * dt -> Rmax 0 (b - r * dt) = b - r * dt.
Proof. intros; now apply Rmax_right. Qed.

(** Settle a comparison of two closed real expressions. *)
Ltac real_side :=
  pose proof PI_bounds;
  cbn [lat lng Mission.home Mission.north Mission.step1 Mission.step2];
  first [ lra | apply Rabs_0_lt; lra ].

Ltac decide_test :=
  match goal with
  | |- context [Js.ltb ?x ?y] =>
      first [ rewrite (ltb_yes x y) by real_side
            | rewrite (ltb_no x y) by real_side ]
  | |- context [Js.geb ?x ?y] =>
      first [ rewrite (geb_yes x y) by real_side
            | rewrite (geb_no x y) by real_side ]
  end.

(** Evaluate the list and counter operations of a call. *)
Ltac eval_lists :=
  cbn [bounds option_map indexBelow indexPositive indexAtLeast counterFalsy
       counterDue Nat.modulo Nat.divmod Nat.eqb Nat.ltb Nat.leb fst snd
       Js.orEmpty Js.lastElement samplePosition List.length Nat.sub
       nth_error app andb].

(** Bring both sides to constructor form. *)
Ltac uav_normal :=
  cbv [set_position set_status set_battery set_speed set_altitude
       set_direction set_flightPath set_coveragePoints
       set_currentWaypointIndex set_altitudeHistory
       set_altitudeHistorySampleCounter
       uav_id uav_name position status battery speed altitude direction
       isSearching targetFound flightPath coveragePoints isOnline isMock
       targetSpeed targetAltitude currentWaypointIndex startPosition
       altitudeHistory altitudeHistorySampleCounter].

Ltac enter_searching :=
  unfold updateUAVState;
  rewrite updateUAVState_guarded by (reflexivity || discriminate);
  unfold Mission.started, Mission.after1, Mission.after2, Mission.after3,
    Mission.route;
  cbn [status String.eqb Ascii.eqb Bool.eqb];
  unfold searchingBranch; sim_unfold; uav_simpl; eval_lists; mission_norm.

Lemma tick1 :
  updateUAVState Mission.started (Some Mission.route) 1 = Mission.after1.
Proof.
  enter_searching.
  decide_test.
  repeat run_block; eval_lists; uav_normal.
  rewrite drain_value by lra.
  f_equal; lra.
Qed.

Lemma home_to_north :
  calculateDistance Mission.home Mission.north
  = 6371000 * (0.01 * PI / 180).
Proof.
  rewrite calculateDistance_north by (cbn [lat lng Mission.home Mission.north]; lra).
  cbn [lat lng Mission.home Mission.north]; lra.
Qed.

Lemma step1_to_north :
  calculateDistance Mission.step1 Mission.north
  = 6371000 * ((0.01 - 15 / 111000) * PI / 180).
Proof.
  rewrite calculateDistance_north by (cbn [lat lng Mission.step1 Mission.north]; lra).
  cbn [lat lng Mission.step1 Mission.north]; lra.
Qed.

Lemma step1_to_home :
  calculateDistance Mission.step1 Mission.home
  = 6371000 * (15 / 111000 * PI / 180).
Proof.
  rewrite calculateDistance_sym.
  rewrite calculateDistance_north by (cbn [lat lng Mission.step1 Mission.home]; lra).
  cbn [lat lng Mission.step1 Mission.home]; lra.
Qed.

Lemma step2_to_home :
  calculateDistance Mission.step2 Mission.home
  = 6371000 * (30 / 111000 * PI / 180).
Proof.
  rewrite calculateDistance_sym.
  rewrite calculateDistance_north by (cbn [lat lng Mission.step2 Mission.home]; lra).
  cbn [lat lng Mission.step2 Mission.home]; lra.
Qed.

Lemma move_from_home :
  calculateNewPosition Mission.home
    (calculateBearing Mission.home Mission.north) (54 / 3.6) 1
  = Mission.step1.
Proof.
  rewrite calculateBearing_north by (cbn [lat lng Mission.home Mission.north]; lra).
  rewrite calculateNewPosition_north.
  unfold Mission.step1; cbn [lat lng Mission.home]; f_equal; lra.
Qed.

Lemma move_from_step1 :
  calculateNewPosition Mission.step1
    (calculateBearing Mission.step1 Mission.north) (54 / 3.6) 1
  = Mission.step2.
Proof.
  rewrite calculateBearing_north by (cbn [lat lng Mission.step1 Mission.north]; lra).
  rewrite calculateNewPosition_north.
  unfold Mission.step2; cbn [lat lng Mission.step1]; f_equal; lra.
Qed.

Lemma bearing_from_home : calculateBearing Mission.home Mission.north = 0.
Proof.
  apply calculateBearing_north; cbn [lat lng Mission.home Mission.north]; lra.
Qed.

Lemma bearing_from_step1 : calculateBearing Mission.step1 Mission.north = 0.
Proof.
  apply calculateBearing_north; cbn [lat lng Mission.step1 Mission.north]; lra.
Qed.

Lemma tick2 :
  updateUAVState Mission.after1 (Some Mission.route) 1 = Mission.after2.
Proof.
  enter_searching.
  decide_test.
  sim_unfold; uav_simpl; eval_lists.
  rewrite home_to_north.
  decide_test.
  sim_unfold; uav_simpl; mission_norm.
  rewrite move_from_home.
  repeat run_block; eval_lists.
  rewrite step1_to_home.
  unfold getCoverageRadius; mission_norm.
  decide_test.
  uav_normal.
  rewrite bearing_from_home, drain_value by lra.
  f_equal; lra.
Qed.

Lemma tick3 :
  updateUAVState Mission.after2 (Some Mission.route) 1 = Mission.after3.
Proof.
  enter_searching.
  decide_test.
  sim_unfold; uav_simpl; eval_lists.
  rewrite step1_to_north.
  decide_test.
  sim_unfold; uav_simpl; mission_norm.
  rewrite move_from_step1.
  repeat run_block; eval_lists.
  rewrite step2_to_home.
  unfold getCoverageRadius; mission_norm.
  decide_test.
  uav_normal.
  rewrite bearing_from_step1, drain_value by lra.
  f_equal; lra.
Qed.

(* ================================================================== *)
(** ** What the excluded cases do *)

(** Searching without a route: the copy is returned as it is. *)
Lemma searching_without_route uav dt :
  status uav = "searching"%string ->
  updateUAVState uav None dt = uav.
Proof.
  intros Hst.
  unfold updateUAVState, runUpdateUAVState, updateUAVStateBody.
  rewrite Hst; cbn [String.eqb Ascii.eqb Bool.eqb].
  destruct (negb (isOnline uav) || false); [reflexivity|].
  destruct (negb (isMock uav)); reflexivity.
Qed.

(** Searching with the index at or past the end of the queue: the call
    refreshes speed and altitude and then waits; index, position, battery
    and status stay. *)
Lemma searching_past_end uav a dt i :
  isOnline uav = true ->
  isMock uav = true ->
  status uav = "searching"%string ->
  currentWaypointIndex uav = Some i ->
  (List.length (Js.orEmpty (bounds a)) <= i)%nat ->
  let uav' := updateUAVState uav (Some a) dt in
  status uav' = "searching"%string
  /\ currentWaypointIndex uav' = Some i
  /\ position uav' = position uav
  /\ battery uav' = battery uav.
Proof.
  intros Hon Hmock Hst Hi Hlen.
  assert (HiB : (i <? List.length (Js.orEmpty (bounds a)))%nat = false)
    by (apply Nat.ltb_ge; lia).
  cbv zeta; unfold updateUAVState.
  rewrite updateUAVState_guarded; trivial; [|rewrite Hst; discriminate].
  rewrite Hst; cbn [String.eqb Ascii.eqb Bool.eqb].
  unfold searchingBranch; rewrite Hi; sim_unfold.
  repeat first [ rewrite HiB | rewrite andb_false_r
               | progress cbn [indexBelow]
               | split_if ];
    auto.
Qed.

(* ================================================================== *)
(** ** Coverage footprint and sample spacing *)

Lemma getCoverageRadius_nonzero altitude :
  altitude <> 0 -> getCoverageRadius altitude = altitude * 0.5.
Proof. intros; unfold getCoverageRadius; apply orElse_nonzero; lra. Qed.

Lemma getCoverageRadius_zero : getCoverageRadius 0 = 25.
Proof.
  unfold getCoverageRadius; replace (0 * 0.5) with 0 by lra.
  apply orElse_zero.
Qed.

(** From 50 m up the code and the documented formula agree. *)
Lemma getCoverageRadius_high altitude :
  50 <= altitude -> getCoverageRadius altitude = footprintRadius_spec altitude.
Proof.
  intros; rewrite getCoverageRadius_nonzero by lra.
  unfold footprintRadius_spec; rewrite Rmax_left; lra.
Qed.

(** C5. At 40 m, the lowest setting of the altitude slider, the code
    returns a radius of 20 m where [max(altitude * 0.5, 25)] is 25 m. *)
Theorem getCoverageRadius_below_minimum :
  getCoverageRadius 40 = 20 /\ footprintRadius_spec 40 = 25.
Proof.
  split.
  - rewrite getCoverageRadius_nonzero; lra.
  - unfold footprintRadius_spec; rewrite Rmax_right; lra.
Qed.

(** The spacing the code enforces: a sample appended after an earlier one
    lies at least [getCoverageRadius(altitude) * 2 * 0.7] from it. *)
Lemma addCoveragePoint_spacing s c :
  Js.lastElement (Js.orEmpty (coveragePoints (updatedUAV s))) = Some c ->
  let u := updatedUAV s in
  let u' := updatedUAV (snd (addCoveragePoint s)) in
  coveragePoints u' = coveragePoints u
  \/ (coveragePoints u'
      = Some (Js.orEmpty (coveragePoints u) ++ [Sample (position u) (altitude u)])
      /\ calculateDistance (position u) (samplePosition c)
         >= getCoverageRadius (altitude u) * 2 * 0.7).
Proof.
  intros Hlast; cbv zeta.
  rewrite addCoveragePoint_run; cbn [snd updatedUAV]; cbv zeta.
  rewrite Hlast.
  destruct (indexPositive _); cbn [andb]; uav_simpl; auto.
  destruct (Js.geb _ _) eqn:E; uav_simpl; auto.
  right; split; [reflexivity | now apply geb_true].
Qed.

(** The spacing the code enforces, for a whole call: when a searching call
    appends a sample after an earlier one, the new sample is the returned
    vehicle's position and altitude, and it lies at least
    [getCoverageRadius(altitude) * 2 * 0.7] from the earlier one. *)
Lemma searching_coverage_spacing uav a dt c :
  isOnline uav = true ->
  isMock uav = true ->
  status uav = "searching"%string ->
  Js.lastElement (Js.orEmpty (coveragePoints uav)) = Some c ->
  let uav' := updateUAVState uav (Some a) dt in
  coveragePoints uav' = Some (Js.orEmpty (coveragePoints uav))
  \/ (coveragePoints uav'
      = Some (Js.orEmpty (coveragePoints uav)
              ++ [Sample (position uav') (altitude uav')])
      /\ calculateDistance (position uav') (samplePosition c)
         >= getCoverageRadius (altitude uav') * 2 * 0.7).
Proof.
  intros Hon Hmock Hst Hlast.
  cbv zeta; unfold updateUAVState.
  rewrite updateUAVState_guarded; trivial; [|rewrite Hst; discriminate].
  rewrite Hst; cbn [String.eqb Ascii.eqb Bool.eqb].
  unfold searchingBranch; sim_unfold.
  repeat first [ rewrite Hlast | progress cbn [Js.orEmpty andb]
               | run_block | split_if ];
    auto;
    right; (split; [reflexivity|]);
    match goal with
    | H : _ && Js.geb _ _ = true |- _ =>
        apply andb_prop in H as [_ H]; now apply geb_true in H
    end.
Qed.

(** The three calls of the mission. *)
Lemma mission_ticks :
  Mission.ticks 1 Mission.started = Mission.after1
  /\ Mission.ticks 2 Mission.started = Mission.after2
  /\ Mission.ticks 3 Mission.started = Mission.after3.
Proof.
  cbn [Mission.ticks].
  rewrite tick1, tick2, tick3; auto.
Qed.

(** C6. On the mission at 40 m and 15 m/s the first call records a sample
    at home and the third call records the next one, 30 m of latitude
    further north; the two are closer than the 35 m that
    [max(altitude * 0.5, 25) * 2 * 0.7] asks for. *)
Theorem coverage_samples_closer_than_spec :
  coveragePoints (Mission.ticks 1 Mission.started)
  = Some [Sample Mission.home 40]
  /\ coveragePoints (Mission.ticks 3 Mission.started)
     = Some [Sample Mission.home 40; Sample Mission.step2 40]
  /\ calculateDistance Mission.step2 Mission.home
     < footprintRadius_spec 40 * 2 * 0.7.
Proof.
  destruct mission_ticks as (-> & _ & ->).
  repeat split.
  rewrite step2_to_home.
  unfold footprintRadius_spec; rewrite Rmax_right by lra.
  pose proof PI_bounds; lra.
Qed.

(* ================================================================== *)
(** ** Altitude history *)

(** A counter that is undefined or 0 is stored as 0, and the altitude is
    appended on that call. *)
Lemma trackAltitudeHistory_stuck uav s :
  counterFalsy (altitudeHistorySampleCounter uav) = true ->
  let u' := updatedUAV (snd (trackAltitudeHistory uav s)) in
  altitudeHistorySampleCounter u' = Some 0%nat
  /\ altitudeHistory u'
     = Some (let h := Js.orEmpty (altitudeHistory uav)
                      ++ [altitude (updatedUAV s)] in
             if (8 <? List.length h)%nat then Js.sliceLast 8 h else h).
Proof.
  intros Hc; cbv zeta.
  rewrite trackAltitudeHistory_run; cbn [snd updatedUAV]; cbv zeta.
  rewrite Hc; cbn [counterDue Nat.modulo Nat.divmod Nat.eqb fst snd].
  uav_simpl; auto.
Qed.

(** The history a call stores has at most 8 entries when the one it read
    had at most 8. *)
Lemma trackAltitudeHistory_cap uav s :
  (List.length (Js.orEmpty (altitudeHistory uav)) <= 8)%nat ->
  (List.length
     (Js.orEmpty
        (altitudeHistory (updatedUAV (snd (trackAltitudeHistory uav s)))))
   <= 8)%nat.
Proof.
  intros Hlen.
  rewrite trackAltitudeHistory_run; cbn [snd updatedUAV]; cbv zeta.
  uav_simpl; cbn [Js.orEmpty].
  destruct (counterDue _); [|assumption].
  destruct (8 <? _)%nat eqn:E.
  - rewrite sliceLast_length; lia.
  - now apply Nat.ltb_ge in E.
Qed.

(** A searching call that reaches the sampling block with a counter that
    is undefined or 0 stores 0 again and appends the returned altitude. *)
Lemma searching_samples_when_counter_falsy uav a dt :
  isOnline uav = true ->
  isMock uav = true ->
  status uav = "searching"%string ->
  (match currentWaypointIndex uav with Some i => i | None => 0 end
   < List.length (Js.orEmpty (bounds a)))%nat ->
  counterFalsy (altitudeHistorySampleCounter uav) = true ->
  let uav' := updateUAVState uav (Some a) dt in
  altitudeHistorySampleCounter uav' = Some 0%nat
  /\ altitudeHistory uav'
     = Some (let h := Js.orEmpty (altitudeHistory uav) ++ [altitude uav'] in
             if (8 <? List.length h)%nat then Js.sliceLast 8 h else h).
Proof.
  intros Hon Hmock Hst Hlt Hc.
  assert (Hpos : (0 <? List.length (Js.orEmpty (bounds a)))%nat = true)
    by (apply Nat.ltb_lt; lia).
  cbv zeta; unfold updateUAVState.
  rewrite updateUAVState_guarded; trivial; [|rewrite Hst; discriminate].
  rewrite Hst; cbn [String.eqb Ascii.eqb Bool.eqb].
  unfold searchingBranch; sim_unfold.
  destruct (currentWaypointIndex uav) as [i|] eqn:Hi.
  - assert (HiB : (i <? List.length (Js.orEmpty (bounds a)))%nat = true)
      by (now apply Nat.ltb_lt).
    destruct (nth_error (Js.orEmpty (bounds a)) i) as [w|] eqn:Hw.
    2:{ apply nth_error_None in Hw; lia. }
    repeat first [ rewrite Hpos | rewrite HiB | rewrite Hw | rewrite Hc
                 | progress cbn [andb indexBelow counterDue Nat.modulo
                                 Nat.divmod Nat.sub Nat.eqb fst snd]
                 | run_block | split_if ];
      auto.
  - destruct (nth_error (Js.orEmpty (bounds a)) 0) as [w|] eqn:Hw.
    2:{ apply nth_error_None in Hw; lia. }
    assert (HiB : (0 <? List.length (Js.orEmpty (bounds a)))%nat = true)
      by (now apply Nat.ltb_lt).
    uav_simpl.
    repeat first [ rewrite HiB | rewrite Hw | rewrite Hc
                 | progress cbn [andb indexBelow counterDue Nat.modulo
                                 Nat.divmod Nat.sub Nat.eqb fst snd]
                 | run_block | split_if ];
      auto.
Qed.

(** C7. On the mission every one of the first three calls appends an
    altitude sample, and the sample counter is 0 after each of them. *)
Theorem altitude_sampled_on_every_call :
  altitudeHistory (Mission.ticks 1 Mission.started) = Some [40]
  /\ altitudeHistory (Mission.ticks 2 Mission.started) = Some [40; 40]
  /\ altitudeHistory (Mission.ticks 3 Mission.started) = Some [40; 40; 40]
  /\ altitudeHistorySampleCounter (Mission.ticks 1 Mission.started) = Some 0%nat
  /\ altitudeHistorySampleCounter (Mission.ticks 2 Mission.started) = Some 0%nat
  /\ altitudeHistorySampleCounter (Mission.ticks 3 Mission.started) = Some 0%nat.
Proof.
  destruct mission_ticks as (-> & -> & ->).
  repeat split.
Qed.

(* ================================================================== *)
(** ** Instances and counterexamples *)

Lemma battery_monotone_witness :
  isOnline Mission.started = true
  /\ 0 <= battery Mission.started <= 100
  /\ 0 < 1
  /\ battery (updateUAVState Mission.started (Some Mission.route) 1)
     <= battery Mission.started
  /\ 0 <= battery (updateUAVState Mission.started (Some Mission.route) 1).
Proof.
  assert (Hb : 0 <= battery Mission.started <= 100) by (cbn; lra).
  split; [reflexivity|].
  split; [exact Hb|].
  split; [lra|].
  apply battery_monotone; [reflexivity | exact Hb | lra].
Defined.

Lemma completion_counterexample :
  isOnline Scenario.resumed = true
  /\ isMock Scenario.resumed = true
  /\ status Scenario.resumed = "searching"%string
  /\ currentWaypointIndex Scenario.resumed
     = Some (List.length (Js.orEmpty (bounds Mission.route)))
  /\ Js.orEmpty (bounds Mission.route) <> []
  /\ status (updateUAVState Scenario.resumed (Some Mission.route) 1)
     <> "returning"%string.
Proof.
  assert (Hlen : (List.length (Js.orEmpty (bounds Mission.route)) <= 2)%nat)
    by (cbn [Mission.route bounds Js.orEmpty List.length]; lia).
  repeat (split; [first [reflexivity | discriminate]|]).
  destruct (searching_past_end Scenario.resumed Mission.route 1 2
              eq_refl eq_refl eq_refl eq_refl Hlen) as (E & _).
  rewrite E; discriminate.
Qed.

Lemma completion_returns_witness :
  isOnline Scenario.atLast = true
  /\ isMock Scenario.atLast = true
  /\ status Scenario.atLast = "searching"%string
  /\ currentWaypointIndex Scenario.atLast = Some 1%nat
  /\ calculateDistance (position Scenario.atLast) Mission.north < 20
  /\ currentWaypointIndex (updateUAVState Scenario.atLast (Some Mission.route) 1)
     = Some 2%nat
  /\ status (updateUAVState Scenario.atLast (Some Mission.route) 1)
     = "returning"%string.
Proof.
  assert (Hd : calculateDistance (position Scenario.atLast) Mission.north < 20).
  { cbn [Scenario.atLast position set_position].
    rewrite calculateDistance_self; lra. }
  repeat (split; [first [reflexivity | exact Hd]|]).
  apply (completion_returns Scenario.atLast Mission.route 1 1 Mission.north);
    first [reflexivity | exact Hd].
Defined.

Lemma waypoint_advance_witness :
  isOnline Scenario.atFirst = true
  /\ isMock Scenario.atFirst = true
  /\ status Scenario.atFirst = "searching"%string
  /\ currentWaypointIndex Scenario.atFirst = Some 0%nat
  /\ nth_error (Js.orEmpty (bounds Mission.route)) 0 = Some Mission.home
  /\ calculateDistance (position Scenario.atFirst) Mission.home < 20
  /\ currentWaypointIndex (updateUAVState Scenario.atFirst (Some Mission.route) 1)
     = Some 1%nat
  /\ position (updateUAVState Scenario.atFirst (Some Mission.route) 1)
     = position Scenario.atFirst.
Proof.
  assert (Hd : calculateDistance (position Scenario.atFirst) Mission.home < 20).
  { cbn [Scenario.atFirst position set_currentWaypointIndex Mission.started].
    rewrite calculateDistance_self; lra. }
  repeat (split; [first [reflexivity | exact Hd]|]).
  apply (waypoint_advance Scenario.atFirst Mission.route 1 0 Mission.home);
    first [reflexivity | exact Hd].
Defined.

Lemma return_snap_witness :
  isOnline Scenario.cancelled = true
  /\ isMock Scenario.cancelled = true
  /\ status Scenario.cancelled = "returning"%string
  /\ startPosition Scenario.cancelled = Some Mission.home
  /\ calculateDistance (position Scenario.cancelled) Mission.home < 20
  /\ position (updateUAVState Scenario.cancelled (Some Mission.route) 1)
     = Mission.home
  /\ speed (updateUAVState Scenario.cancelled (Some Mission.route) 1) = 0
  /\ altitude (updateUAVState Scenario.cancelled (Some Mission.route) 1) = 0
  /\ status (updateUAVState Scenario.cancelled (Some Mission.route) 1)
     = "idle"%string.
Proof.
  assert (Hd : calculateDistance (position Scenario.cancelled) Mission.home < 20).
  { cbn [Scenario.cancelled position set_status Mission.after1].
    rewrite calculateDistance_self; lra. }
  repeat (split; [first [reflexivity | exact Hd]|]).
  apply (return_snap Scenario.cancelled (Some Mission.route) 1 Mission.home);
    first [reflexivity | exact Hd].
Defined.

Lemma battery_drain_counterexample :
  isOnline Scenario.unassigned = true
  /\ isMock Scenario.unassigned = true
  /\ status Scenario.unassigned = "searching"%string
  /\ 0 < battery Scenario.unassigned
  /\ 0 < 1
  /\ ~ battery (updateUAVState Scenario.unassigned None 1)
       < battery Scenario.unassigned.
Proof.
  repeat (split; [first [reflexivity | cbn; lra]|]).
  rewrite searching_without_route by reflexivity.
  lra.
Qed.

Lemma battery_strictly_drains_witness :
  isOnline Mission.started = true
  /\ isMock Mission.started = true
  /\ 0 < battery Mission.started <= 100
  /\ 0.001 <= 1
  /\ status Mission.started = "searching"%string
  /\ battery (updateUAVState Mission.started (Some Mission.route) 1)
     < battery Mission.started.
Proof.
  assert (Hb : 0 < battery Mission.started <= 100) by (cbn; lra).
  repeat (split; [first [reflexivity | exact Hb | lra]|]).
  apply battery_strictly_drains; [reflexivity | reflexivity | exact Hb | lra |].
  right; left; split; [reflexivity|].
  exists Mission.route; split; [reflexivity | cbn; lia].
Defined.

Lemma guard_returns_unchanged_witness :
  status Scenario.lost = "offline"%string
  /\ updateUAVState Scenario.lost (Some Mission.route) 1 = Scenario.lost.
Proof.
  split; [reflexivity|].
  apply guard_returns_unchanged; right; left; reflexivity.
Defined.

(* ================================================================== *)
(** ** Every call of updateUAVState *)

(** Like [split_if], but the caps of the two histories stay folded. *)
Ltac split_branch :=
  match goal with
  | |- context [if Js.ltb ?x ?y then _ else _] => destruct (Js.ltb x y) eqn:?
  | |- context [if andb ?x ?y then _ else _] => destruct (andb x y) eqn:?
  | |- context [if indexAtLeast ?x ?y then _ else _] =>
      destruct (indexAtLeast x y) eqn:?
  | |- context [if counterFalsy ?x then _ else _] =>
      destruct (counterFalsy x) eqn:?
  | |- context [if counterDue ?x then _ else _] =>
      destruct (counterDue x) eqn:?
  | |- context [match ?b with Some _ => _ | None => _ end] => destruct b eqn:?
  end; uav_simpl.

(** Split a call into its guard exits and its three branches, and run
    the branch bodies symbolically. *)
Ltac every_call uav area :=
  unfold updateUAVState, runUpdateUAVState, updateUAVStateBody;
  destruct (negb (isOnline uav) || (status uav =? "offline")%string);
    [sim_unfold | ];
  [ | destruct (negb (isMock uav)); [sim_unfold | ] ];
  [ | | sim_unfold;
        destruct (status uav =? "searching")%string eqn:Esearching;
        destruct area as [?a|];
        [ unfold searchingBranch; sim_unfold
        | destruct (status uav =? "returning")%string eqn:Ereturning;
          [ unfold returningBranch; sim_unfold
          | destruct (status uav =? "idle")%string eqn:Eidle;
            [ unfold idleBranch; sim_unfold; uav_simpl | sim_unfold ] ]
        | destruct (status uav =? "returning")%string eqn:Ereturning;
          [ unfold returningBranch; sim_unfold
          | destruct (status uav =? "idle")%string eqn:Eidle;
            [ unfold idleBranch; sim_unfold; uav_simpl | sim_unfold ] ]
        | destruct (status uav =? "returning")%string eqn:Ereturning;
          [ unfold returningBranch; sim_unfold
          | destruct (status uav =? "idle")%string eqn:Eidle;
            [ unfold idleBranch; sim_unfold; uav_simpl | sim_unfold ] ] ] ];
  repeat first [run_block | split_branch].

(** The identifier survives a call. *)
Lemma updateUAVState_uav_id uav area dt :
  uav_id (updateUAVState uav area dt) = uav_id uav.
Proof. every_call uav area; reflexivity. Qed.

(** X1. A call never touches what the operator and the connection layer
    own: identifier, name, the online and mock flags, the two set points,
    the start position and the searching and target flags of the returned
    vehicle are those of the argument. *)
Theorem call_keeps_configuration uav area deltaTime :
  let uav' := updateUAVState uav area deltaTime in
  uav_id uav' = uav_id uav
  /\ uav_name uav' = uav_name uav
  /\ isOnline uav' = isOnline uav
  /\ isMock uav' = isMock uav
  /\ targetSpeed uav' = targetSpeed uav
  /\ targetAltitude uav' = targetAltitude uav
  /\ startPosition uav' = startPosition uav
  /\ isSearching uav' = isSearching uav
  /\ targetFound uav' = targetFound uav.
Proof.
  cbv zeta; every_call uav area; repeat split; assumption.
Qed.

(** X2. The only status changes a call makes are searching to returning
    and returning to idle. *)
Theorem call_status_transitions uav area deltaTime :
  let uav' := updateUAVState uav area deltaTime in
  status uav' = status uav
  \/ (status uav = "searching"%string /\ status uav' = "returning"%string)
  \/ (status uav = "returning"%string /\ status uav' = "idle"%string).
Proof.
  cbv zeta; every_call uav area; auto;
    repeat match goal with
           | H : (_ =? _)%string = true |- _ => apply String.eqb_eq in H
           end;
    auto.
Qed.

(** X3. A call leaves the waypoint index alone or advances it by one; an
    undefined index stays undefined or becomes 0 or 1. *)
Theorem call_index_step uav area deltaTime :
  let uav' := updateUAVState uav area deltaTime in
  match currentWaypointIndex uav with
  | Some i =>
      currentWaypointIndex uav' = Some i
      \/ currentWaypointIndex uav' = Some (S i)
  | None =>
      currentWaypointIndex uav' = None
      \/ currentWaypointIndex uav' = Some 0%nat
      \/ currentWaypointIndex uav' = Some 1%nat
  end.
Proof.
  cbv zeta; every_call uav area;
    destruct (currentWaypointIndex uav); try discriminate;
    repeat match goal with
           | H : Some _ = Some _ |- _ => injection H as <-
           end;
    cbn [option_map]; auto.
Qed.

(* ================================================================== *)
(** ** Histories *)

Lemma lastElement_snoc {A : Type} (xs : list A) (x : A) :
  Js.lastElement (xs ++ [x]) = Some x.
Proof.
  unfold Js.lastElement.
  rewrite length_app; cbn [List.length].
  replace (List.length xs + 1 - 1)%nat with (List.length xs) by lia.
  rewrite nth_error_app2 by lia.
  now rewrite Nat.sub_diag.
Qed.

Lemma sliceLast_snoc {A : Type} (n : nat) (xs : list A) (x : A) :
  Js.sliceLast (S n) (xs ++ [x])
  = Js.sliceLast n xs ++ [x].
Proof.
  unfold Js.sliceLast.
  rewrite length_app; cbn [List.length].
  replace (List.length xs + 1 - S n)%nat with (List.length xs - n)%nat by lia.
  rewrite skipn_app.
  replace (List.length xs - n - List.length xs)%nat with 0%nat by lia.
  reflexivity.
Qed.

(** The capped list that the two history blocks store. *)
Lemma capped_length {A : Type} (n : nat) (xs : list A) :
  (List.length (if (n <? List.length xs)%nat then Js.sliceLast n xs else xs)
   <= n)%nat.
Proof.
  destruct (n <? List.length xs)%nat eqn:E.
  - rewrite sliceLast_length; lia.
  - now apply Nat.ltb_ge in E.
Qed.

Lemma capped_last {A : Type} (n : nat) (xs : list A) (x : A) :
  Js.lastElement
    (if (S n <? List.length (xs ++ [x]))%nat
     then Js.sliceLast (S n) (xs ++ [x]) else xs ++ [x])
  = Some x.
Proof.
  destruct (_ <? _)%nat.
  - rewrite sliceLast_snoc; apply lastElement_snoc.
  - apply lastElement_snoc.
Qed.

(** X4. The flight path stays capped: when the argument's flight path has
    at most 100 entries, so has the returned vehicle's, in every call. *)
Theorem call_flightPath_capped uav area deltaTime :
  (List.length (Js.orEmpty (flightPath uav)) <= 100)%nat ->
  (List.length (Js.orEmpty (flightPath (updateUAVState uav area deltaTime)))
   <= 100)%nat.
Proof.
  intros Hlen.
  every_call uav area; cbn [Js.orEmpty]; trivial; apply capped_length.
Qed.

(** X5. The altitude history stays capped: when the argument's history
    has at most 8 entries, so has the returned vehicle's, in every call. *)
Theorem call_altitudeHistory_capped uav area deltaTime :
  (List.length (Js.orEmpty (altitudeHistory uav)) <= 8)%nat ->
  (List.length
     (Js.orEmpty (altitudeHistory (updateUAVState uav area deltaTime)))
   <= 8)%nat.
Proof.
  intros Hlen.
  every_call uav area; cbn [Js.orEmpty]; trivial; apply capped_length.
Qed.

(** X6. Coverage samples are never dropped or reordered: in every call the
    returned list is the argument's list followed by at most one new
    sample, taken at the returned position and altitude. *)
Theorem call_coverage_grows uav area deltaTime :
  let uav' := updateUAVState uav area deltaTime in
  Js.orEmpty (coveragePoints uav') = Js.orEmpty (coveragePoints uav)
  \/ Js.orEmpty (coveragePoints uav')
     = Js.orEmpty (coveragePoints uav)
       ++ [Sample (position uav') (altitude uav')].
Proof.
  cbv zeta; every_call uav area; cbn [Js.orEmpty]; auto.
Qed.

(* ================================================================== *)
(** ** Searching and returning, step by step *)

(** Enter the branch of an online mock vehicle whose status is known. *)
Ltac enter_branch Hst :=
  cbv zeta; unfold updateUAVState;
  rewrite updateUAVState_guarded; trivial; [|rewrite Hst; discriminate];
  rewrite Hst; cbn [String.eqb Ascii.eqb Bool.eqb].

(** A target speed of at least 1 km/h converts to a speed that is not 0,
    so the fallback of 15 m/s in the searching branch is not taken. *)
Lemma targetSpeedMs_nonzero ts :
  1 <= Js.orDefault ts 50 -> Js.orDefault ts 50 / 3.6 <> 0.
Proof. intros H; lra. Qed.

(** X7. The index never runs past the end of the queue: when a searching
    online mock vehicle enters a call with an undefined index or an index
    of at most [bounds.length], the returned index is defined and at most
    [bounds.length]. *)
Theorem searching_index_bounded uav a deltaTime :
  isOnline uav = true ->
  isMock uav = true ->
  status uav = "searching"%string ->
  (match currentWaypointIndex uav with Some i => i | None => 0 end
   <= List.length (Js.orEmpty (bounds a)))%nat ->
  exists i',
    currentWaypointIndex (updateUAVState uav (Some a) deltaTime) = Some i'
    /\ (i' <= List.length (Js.orEmpty (bounds a)))%nat.
Proof.
  intros Hon Hmock Hst Hle.
  enter_branch Hst.
  unfold searchingBranch; sim_unfold.
  destruct (currentWaypointIndex uav) as [i|] eqn:Hi; sim_unfold;
    repeat first [run_block | split_branch];
    cbn [option_map]; eexists; (split; [reflexivity|]); trivial;
    match goal with
    | H : nth_error ?l ?k = Some _ |- _ =>
        assert (k < List.length l)%nat by (apply nth_error_Some; congruence);
        lia
    end.
Qed.


(** X9. No photography on the way to the first waypoint: a searching call
    that starts with an undefined index or index 0 and is 20 m or more
    from [bounds[0]] returns index 0 and the coverage list it was given. *)
Theorem transit_records_no_coverage uav a deltaTime w :
  isOnline uav = true ->
  isMock uav = true ->
  status uav = "searching"%string ->
  match currentWaypointIndex uav with Some i => i | None => 0%nat end = 0%nat ->
  nth_error (Js.orEmpty (bounds a)) 0 = Some w ->
  20 <= calculateDistance (position uav) w ->
  let uav' := updateUAVState uav (Some a) deltaTime in
  currentWaypointIndex uav' = Some 0%nat
  /\ coveragePoints uav' = Some (Js.orEmpty (coveragePoints uav)).
Proof.
  intros Hon Hmock Hst Hi Hw Hd.
  assert (Hfar : Js.ltb (calculateDistance (position uav) w) 20 = false)
    by (apply ltb_false; lra).
  assert (Hpos : (0 <? List.length (Js.orEmpty (bounds a)))%nat = true).
  { apply Nat.ltb_lt, nth_error_Some; congruence. }
  enter_branch Hst.
  unfold searchingBranch; sim_unfold.
  destruct (currentWaypointIndex uav) as [[|i]|] eqn:Hcwi; try discriminate;
    sim_unfold; uav_simpl;
    repeat first [ rewrite Hpos | rewrite Hw | rewrite Hfar
                 | rewrite Nat.ltb_irrefl
                 | progress cbn [andb indexBelow indexPositive]
                 | run_block | split_branch ];
    auto.
Qed.

(** X10. Move-toward: a searching call with its index in range and 20 m or
    more from the waypoint keeps the index, turns to the bearing of the
    waypoint and moves from the old position along it at the converted
    target speed, when the target speed ([targetSpeed || 50]) is at least
    1 km/h. *)
Theorem searching_moves_toward_waypoint uav a deltaTime w :
  isOnline uav = true ->
  isMock uav = true ->
  status uav = "searching"%string ->
  1 <= Js.orDefault (targetSpeed uav) 50 ->
  nth_error (Js.orEmpty (bounds a))
    (match currentWaypointIndex uav with Some i => i | None => 0%nat end)
  = Some w ->
  20 <= calculateDistance (position uav) w ->
  let uav' := updateUAVState uav (Some a) deltaTime in
  currentWaypointIndex uav'
  = Some (match currentWaypointIndex uav with Some i => i | None => 0%nat end)
  /\ direction uav' = calculateBearing (position uav) w
  /\ speed uav' = Js.orDefault (targetSpeed uav) 50 / 3.6
  /\ position uav'
     = calculateNewPosition (position uav) (calculateBearing (position uav) w)
                            (Js.orDefault (targetSpeed uav) 50 / 3.6) deltaTime
  /\ status uav' = "searching"%string.
Proof.
  intros Hon Hmock Hst Hts Hw Hd.
  assert (Hfar : Js.ltb (calculateDistance (position uav) w) 20 = false)
    by (apply ltb_false; lra).
  pose proof (targetSpeedMs_nonzero (targetSpeed uav) Hts) as Hspeed.
  enter_branch Hst.
  unfold searchingBranch; sim_unfold.
  destruct (currentWaypointIndex uav) as [i|] eqn:Hcwi; sim_unfold; uav_simpl.
  all: match type of Hw with
       | nth_error ?l ?k = _ =>
           assert (Hlt : (k < List.length l)%nat)
             by (apply nth_error_Some; congruence)
       end.
  all: assert (Hpos : (0 <? List.length (Js.orEmpty (bounds a)))%nat = true)
         by (apply Nat.ltb_lt; lia).
  all: match type of Hlt with
       | (?k < ?n)%nat =>
           assert (HiB : (k <? n)%nat = true) by (now apply Nat.ltb_lt);
           assert (Hge : (n <=? k)%nat = false) by (apply Nat.leb_gt; lia)
       end.
  all: repeat first [ rewrite Hpos | rewrite HiB | rewrite Hw | rewrite Hfar
                    | rewrite Hge
                    | rewrite (orElse_nonzero _ 15 Hspeed)
                    | progress cbn [andb indexBelow indexAtLeast]
                    | run_block | split_branch ];
    auto 6.
Qed.

(** X11. A returning call 20 m or more from the start position keeps the
    status, flies from the old position along the bearing of the start
    position at 1.5 times the converted target speed, and drains 0.08 per
    second. *)
Theorem returning_moves_home uav area deltaTime start :
  isOnline uav = true ->
  isMock uav = true ->
  status uav = "returning"%string ->
  startPosition uav = Some start ->
  20 <= calculateDistance (position uav) start ->
  let uav' := updateUAVState uav area deltaTime in
  let returnSpeedMs := Js.orDefault (targetSpeed uav) 50 / 3.6 * 1.5 in
  status uav' = "returning"%string
  /\ speed uav' = returnSpeedMs
  /\ direction uav' = calculateBearing (position uav) start
  /\ position uav'
     = calculateNewPosition (position uav)
         (calculateBearing (position uav) start) returnSpeedMs deltaTime
  /\ battery uav' = Rmax 0 (battery uav - 0.08 * deltaTime).
Proof.
  intros Hon Hmock Hst Hstart Hd.
  assert (Hfar : Js.ltb (calculateDistance (position uav) start) 20 = false)
    by (apply ltb_false; lra).
  enter_branch Hst.
  destruct area; unfold returningBranch; rewrite Hstart, Hfar; sim_unfold;
    repeat first [run_block | split_branch]; auto 6.
Qed.

(** X12. A returning vehicle with no start position becomes idle with
    speed 0 and is otherwise returned as it was: no move, no drain. *)
Theorem returning_without_start uav area deltaTime :
  isOnline uav = true ->
  isMock uav = true ->
  status uav = "returning"%string ->
  startPosition uav = None ->
  updateUAVState uav area deltaTime
  = set_speed 0 (set_status "idle" uav).
Proof.
  intros Hon Hmock Hst Hstart.
  enter_branch Hst.
  destruct area; unfold returningBranch; rewrite Hstart; sim_unfold;
    reflexivity.
Qed.

(* ================================================================== *)
(** ** Routes that grow, and the callers in App.js *)

(** X13. Append during flight: a searching vehicle that waits with its
    index at [bounds.length] resumes in the first call that sees a
    waypoint appended to the bounds.  It drains again; within 20 m of the
    new waypoint it advances past it and turns to returning, otherwise it
    keeps its index and status and moves toward the new waypoint at the
    converted target speed, when the target speed ([targetSpeed || 50])
    is at least 1 km/h. *)
Theorem resume_after_append uav a deltaTime w :
  isOnline uav = true ->
  isMock uav = true ->
  status uav = "searching"%string ->
  1 <= Js.orDefault (targetSpeed uav) 50 ->
  currentWaypointIndex uav = Some (List.length (Js.orEmpty (bounds a))) ->
  let n := List.length (Js.orEmpty (bounds a)) in
  let a' := set_bounds (Some (Js.orEmpty (bounds a) ++ [w])) a in
  let uav' := updateUAVState uav (Some a') deltaTime in
  battery uav' = Rmax 0 (battery uav - 0.1 * deltaTime)
  /\ (calculateDistance (position uav) w < 20 ->
      currentWaypointIndex uav' = Some (S n)
      /\ status uav' = "returning"%string
      /\ position uav' = position uav)
  /\ (20 <= calculateDistance (position uav) w ->
      currentWaypointIndex uav' = Some n
      /\ status uav' = "searching"%string
      /\ position uav'
         = calculateNewPosition (position uav)
             (calculateBearing (position uav) w)
             (Js.orDefault (targetSpeed uav) 50 / 3.6) deltaTime).
Proof.
  intros Hon Hmock Hst Hts Hi.
  pose proof (targetSpeedMs_nonzero (targetSpeed uav) Hts) as Hspeed.
  set (n := List.length (Js.orEmpty (bounds a))).
  assert (Hlen : List.length (Js.orEmpty (bounds a) ++ [w]) = S n)
    by (rewrite length_app; cbn [List.length]; fold n; lia).
  assert (Hw : nth_error (Js.orEmpty (bounds a) ++ [w]) n = Some w).
  { rewrite nth_error_app2 by (unfold n; lia).
    unfold n; now rewrite Nat.sub_diag. }
  enter_branch Hst.
  unfold searchingBranch; rewrite Hi; fold n; sim_unfold.
  cbn [set_bounds bounds Js.orEmpty].
  rewrite Hlen.
  assert (Hpos : (0 <? S n)%nat = true) by (apply Nat.ltb_lt; lia).
  assert (HiB : (n <? S n)%nat = true) by (apply Nat.ltb_lt; lia).
  assert (Hge1 : (S n <=? S n)%nat = true) by (apply Nat.leb_le; lia).
  assert (Hge0 : (S n <=? n)%nat = false) by (apply Nat.leb_gt; lia).
  repeat first [ rewrite Hpos | rewrite HiB | rewrite Hw
               | rewrite Hge1 | rewrite Hge0
               | rewrite (orElse_nonzero _ 15 Hspeed)
               | progress cbn [andb indexBelow indexAtLeast option_map]
               | run_block | split_branch ];
    (split; [reflexivity|]);
    match goal with
    | H : Js.ltb _ 20 = true |- _ => apply ltb_true in H
    | H : Js.ltb _ 20 = false |- _ => apply ltb_false in H
    end;
    (split; intros; [try lra | try lra]); auto.
Qed.

Lemma appendWaypoint_skip id w x rest :
  (App.assignedTo id x && (area_status x =? "active")%string) = false ->
  App.appendWaypoint id w (x :: rest) = x :: App.appendWaypoint id w rest.
Proof.
  intros Hx; unfold App.appendWaypoint; cbv zeta.
  cbn [App.findIndex]; rewrite Hx.
  destruct (App.findIndex _ rest) as [k|]; cbn [option_map]; [|reflexivity].
  cbn [nth_error].
  destruct (nth_error rest k); reflexivity.
Qed.

Lemma appendWaypoint_hit id w x rest :
  (App.assignedTo id x && (area_status x =? "active")%string) = true ->
  App.appendWaypoint id w (x :: rest)
  = set_bounds (Some (Js.orEmpty (bounds x) ++ [w])) x :: rest.
Proof.
  intros Hx; unfold App.appendWaypoint; cbv zeta.
  cbn [App.findIndex]; rewrite Hx; reflexivity.
Qed.

(** X14. An appended waypoint is seen by the next simulation step: when
    the route the loop resolves for a vehicle is active, the route it
    resolves after [handleAddWaypoint]'s update is that route with the new
    waypoint at the end of its bounds. *)
Theorem appendWaypoint_visible id w areas a :
  find (App.assignedTo id) areas = Some a ->
  area_status a = "active"%string ->
  find (App.assignedTo id) (App.appendWaypoint id w areas)
  = Some (set_bounds (Some (Js.orEmpty (bounds a) ++ [w])) a).
Proof.
  intros Hfind Hactive.
  induction areas as [|x rest IH]; [discriminate|].
  cbn [find] in Hfind.
  destruct (App.assignedTo id x) eqn:Hx.
  - injection Hfind as ->.
    rewrite appendWaypoint_hit
      by (rewrite Hx, Hactive; reflexivity).
    cbn [find].
    replace (App.assignedTo id (set_bounds _ a)) with true
      by (symmetry; exact Hx).
    reflexivity.
  - rewrite appendWaypoint_skip by (rewrite Hx; reflexivity).
    cbn [find]; rewrite Hx; auto.
Qed.

(** X15. [handleAddWaypoint]'s update only appends: the route table keeps
    its length and order, every route keeps its identifier, status and
    assigned vehicle, and the bounds of every route are the old bounds,
    followed by the new waypoint in at most the updated route. *)
Theorem appendWaypoint_only_appends id w areas :
  Forall2
    (fun a a' =>
       area_id a' = area_id a
       /\ area_status a' = area_status a
       /\ assignedUAV a' = assignedUAV a
       /\ (a' = a \/ Js.orEmpty (bounds a') = Js.orEmpty (bounds a) ++ [w]))
    areas (App.appendWaypoint id w areas).
Proof.
  assert (Hsame : forall l : list SearchArea,
             Forall2
               (fun a a' =>
                  area_id a' = area_id a
                  /\ area_status a' = area_status a
                  /\ assignedUAV a' = assignedUAV a
                  /\ (a' = a
                      \/ Js.orEmpty (bounds a') = Js.orEmpty (bounds a) ++ [w]))
               l l).
  { induction l; constructor; auto 6. }
  induction areas as [|x rest IH]; [constructor|].
  destruct (App.assignedTo id x && (area_status x =? "active")%string) eqn:Hx.
  - rewrite appendWaypoint_hit by assumption.
    constructor; [|apply Hsame].
    cbn [set_bounds area_id area_status assignedUAV bounds Js.orEmpty]; auto 6.
  - rewrite appendWaypoint_skip by assumption.
    constructor; auto 6.
Qed.

(** A guarded vehicle passes through a call. *)
Lemma guarded_call uav area dt :
  isOnline uav = false \/ isMock uav = false ->
  updateUAVState uav area dt = uav.
Proof.
  intros [H | H];
    unfold updateUAVState, runUpdateUAVState, updateUAVStateBody; rewrite H.
  - reflexivity.
  - destruct (negb (isOnline uav) || _); reflexivity.
Qed.

(** X16. The simulation loop returns the vehicles in the same order with
    the same identifiers, and returns every vehicle that is not online or
    not a mock vehicle exactly as it was. *)
Theorem simulationStep_keeps_vehicles uavs areas :
  map uav_id (App.simulationStep uavs areas) = map uav_id uavs
  /\ Forall2
       (fun uav uav' =>
          isOnline uav = false \/ isMock uav = false -> uav' = uav)
       uavs (App.simulationStep uavs areas).
Proof.
  unfold App.simulationStep; cbv zeta; split.
  - rewrite map_map; apply map_ext; intros uav.
    apply updateUAVState_uav_id.
  - induction uavs as [|uav rest IH]; cbn [map]; constructor; trivial.
    intros H; now apply guarded_call.
Qed.

(** X17. Cancelling right after starting lands the vehicle where it is:
    [handleStartSearch] stores the current position as start position, so
    the first call after [handleCancelSearch] returns an idle vehicle at
    that same position with speed 0 and altitude 0. *)
Theorem cancel_after_start_lands uav area deltaTime :
  isOnline uav = true ->
  isMock uav = true ->
  let uav' :=
    updateUAVState (App.cancelSearch (App.startSearch uav)) area deltaTime in
  status uav' = "idle"%string
  /\ position uav' = position uav
  /\ speed uav' = 0
  /\ altitude uav' = 0
  /\ battery uav' = Rmax 0 (battery uav - 0.08 * deltaTime).
Proof.
  intros Hon Hmock.
  set (u := App.cancelSearch (App.startSearch uav)).
  assert (Hst : status u = "returning"%string) by reflexivity.
  assert (Hstart : startPosition u = Some (position uav)) by reflexivity.
  assert (Hpos : position u = position uav) by reflexivity.
  assert (Hbat : battery u = battery uav) by reflexivity.
  assert (Hnear : Js.ltb (calculateDistance (position u) (position uav)) 20
                  = true)
    by (apply ltb_true; rewrite Hpos, calculateDistance_self; lra).
  enter_branch Hst.
  destruct area; unfold returningBranch; rewrite Hstart, Hnear, Hbat;
    sim_unfold; uav_simpl; auto 6.
Qed.

(* ================================================================== *)
(** ** Geodesy *)

Lemma atan2_range y x : - PI < Js.atan2 y x <= PI.
Proof.
  pose proof PI_bounds as HPI.
  pose proof (atan_bound (y / x)) as Hb.
  unfold Js.atan2.
  destruct (Rlt_dec 0 x) as [Hx|Hx]; [lra|].
  destruct (Rlt_dec x 0) as [Hx'|Hx'].
  - destruct (Rle_dec 0 y) as [Hy|Hy].
    + assert (y / x <= 0).
      { pose proof (Rinv_lt_0_compat x Hx'); unfold Rdiv; nra. }
      assert (atan (y / x) <= 0).
      { destruct (Req_dec (y / x) 0) as [E|E].
        - rewrite E, atan_0; lra.
        - left; rewrite <- atan_0; apply atan_increasing; lra. }
      lra.
    + assert (0 < y / x).
      { pose proof (Rinv_lt_0_compat x Hx'); unfold Rdiv; nra. }
      assert (0 < atan (y / x))
        by (rewrite <- atan_0; now apply atan_increasing).
      lra.
  - destruct (Rlt_dec 0 y); [lra|].
    destruct (Rlt_dec y 0); lra.
Qed.


Lemma trunc_unit r : 0 <= r < 1 -> Js.trunc r = 0%Z.
Proof.
  intros Hr; unfold Js.trunc.
  destruct (Rle_dec 0 r); [|lra].
  symmetry; apply Int_part_spec; simpl; lra.
Qed.

Lemma trunc_one r : 1 <= r < 2 -> Js.trunc r = 1%Z.
Proof.
  intros Hr; unfold Js.trunc.
  destruct (Rle_dec 0 r); [|lra].
  symmetry; apply Int_part_spec; simpl; lra.
Qed.

(** X18. The haversine distance is symmetric and is 0 from a point to
    itself. *)
Theorem calculateDistance_symmetric_zero p q :
  calculateDistance p q = calculateDistance q p
  /\ calculateDistance p p = 0.
Proof. split; [apply calculateDistance_sym | apply calculateDistance_self]. Qed.



(** X20. Along a meridian the haversine distance is the arc between the
    latitudes, in either direction. *)
Theorem calculateDistance_meridian p q :
  lng q = lng p ->
  Rabs (lat q - lat p) < 180 ->
  calculateDistance p q = 6371000 * (Rabs (lat q - lat p) * PI / 180).
Proof.
  intros Hlng Hlat.
  destruct (Rle_dec (lat p) (lat q)) as [Hle|Hgt].
  - rewrite Rabs_right in * by lra.
    apply calculateDistance_north; trivial; lra.
  - rewrite Rabs_left in * by lra.
    rewrite calculateDistance_sym, calculateDistance_north by (auto; lra).
    lra.
Qed.

Lemma calculateBearing_bounds p q : 0 <= calculateBearing p q < 360.
Proof.
  pose proof PI_bounds as HPI.
  unfold calculateBearing; cbv zeta.
  set (t := Js.atan2 _ _).
  pose proof (atan2_range
                (sin ((lng q - lng p) * PI / 180) * cos (lat q * PI / 180))
                (cos (lat p * PI / 180) * sin (lat q * PI / 180)
                 - sin (lat p * PI / 180) * cos (lat q * PI / 180)
                   * cos ((lng q - lng p) * PI / 180))) as Ht.
  fold t in Ht.
  assert (Hb : -180 < t * 180 / PI <= 180).
  { replace (t * 180 / PI) with (t / PI * 180) by (field; lra).
    assert (-1 < t / PI <= 1).
    { split.
      - apply (Rmult_lt_reg_r PI); [lra|].
        unfold Rdiv; rewrite Rmult_assoc, Rinv_l by lra; lra.
      - apply (Rmult_le_reg_r PI); [lra|].
        unfold Rdiv; rewrite Rmult_assoc, Rinv_l by lra; lra. }
    lra. }
  unfold Js.rem.
  set (b := t * 180 / PI) in *.
  destruct (Rlt_dec (b + 360) 360) as [Hlt|Hge].
  - rewrite trunc_unit by lra.
    lra.
  - rewrite trunc_one by lra.
    lra.
Qed.

(** X21. The bearing is a heading in [0, 360), for every pair of points. *)
Theorem calculateBearing_range p q :
  0 <= calculateBearing p q < 360.
Proof. apply calculateBearing_bounds. Qed.

(** X22. Cardinal cases, for latitudes between -90 and 90 degrees: the
    bearing from a point to itself is 0 and not undefined; along a
    meridian, for latitudes between a millionth of a degree and 179
    degrees apart, it is 0 going north and 180 going south. *)
Theorem calculateBearing_meridian p q :
  -90 <= lat p <= 90 ->
  -90 <= lat q <= 90 ->
  lng q = lng p ->
  lat q = lat p \/ 0.000001 <= Rabs (lat q - lat p) <= 179 ->
  calculateBearing p q = (if Rlt_dec (lat q) (lat p) then 180 else 0).
Proof.
  intros _ _ Hlng Hsep.
  assert (Hlat : Rabs (lat q - lat p) < 180).
  { destruct Hsep as [-> | H]; [|lra].
    replace (lat p - lat p) with 0 by lra; rewrite Rabs_R0; lra. }
  clear Hsep.
  pose proof PI_bounds as HPI.
  destruct (Rlt_dec (lat q) (lat p)) as [Hsouth|Hnot].
  - rewrite Rabs_left in Hlat by lra.
    unfold calculateBearing; cbv zeta.
    rewrite Hlng.
    replace ((lng p - lng p) * PI / 180) with 0 by (unfold Rdiv; ring).
    rewrite sin_0, cos_0, Rmult_0_l, Rmult_1_r.
    replace (cos (lat p * PI / 180) * sin (lat q * PI / 180)
             - sin (lat p * PI / 180) * cos (lat q * PI / 180))
      with (- sin ((lat p - lat q) * PI / 180)).
    2:{ replace ((lat p - lat q) * PI / 180)
          with (lat p * PI / 180 - lat q * PI / 180) by (unfold Rdiv; ring).
        rewrite sin_minus; ring. }
    assert (Hs : 0 < sin ((lat p - lat q) * PI / 180))
      by (apply sin_gt_0; nra).
    unfold Js.atan2.
    destruct (Rlt_dec 0 (- sin _)); [lra|].
    destruct (Rlt_dec (- sin _) 0); [|lra].
    destruct (Rle_dec 0 0); [|lra].
    match goal with
    | |- context [atan (0 / ?d)] =>
        replace (0 / d) with 0 by (unfold Rdiv; ring)
    end.
    rewrite atan_0.
    unfold Js.rem.
    replace (((0 + PI) * 180 / PI + 360) / 360) with (3 / 2) by (field; lra).
    rewrite trunc_one by lra.
    field; lra.
  - destruct (Req_dec (lat q) (lat p)) as [E|E].
    + unfold calculateBearing; cbv zeta.
      rewrite Hlng, E.
      replace ((lng p - lng p) * PI / 180) with 0 by (unfold Rdiv; ring).
      rewrite sin_0, cos_0, Rmult_0_l, Rmult_1_r.
      replace (cos (lat p * PI / 180) * sin (lat p * PI / 180)
               - sin (lat p * PI / 180) * cos (lat p * PI / 180))
        with 0 by ring.
      unfold Js.atan2.
      destruct (Rlt_dec 0 0); [lra|].
      unfold Js.rem.
      replace ((0 * 180 / PI + 360) / 360) with 1 by (field; lra).
      rewrite trunc_1; field; lra.
    + rewrite Rabs_right in Hlat by lra.
      apply calculateBearing_north; trivial; lra.
Qed.

(** X23. One step due north, measured back: the haversine distance from a
    point to the position [calculateNewPosition] reaches from it with
    heading 0 is [speed * deltaTime] scaled by
    [6371000 * PI / (180 * 111000)], the ratio of the two Earth models the
    module uses. *)
Theorem north_step_distance p v deltaTime :
  0 <= v * deltaTime / 111000 < 180 ->
  calculateDistance p (calculateNewPosition p 0 v deltaTime)
  = v * deltaTime * (6371000 * PI / (180 * 111000)).
Proof.
  intros Hstep.
  rewrite calculateNewPosition_north.
  rewrite calculateDistance_north by (cbn [lat lng]; trivial; lra).
  cbn [lat lng]; field.
Qed.

(* ================================================================== *)
(** ** Polygons, footprints and areas *)

(** An edge between two vertices of equal longitude is never crossed. *)
Lemma edgeCrosses_level point u v :
  lng u = lng v -> edgeCrosses point u v = false.
Proof.
  intros E; unfold edgeCrosses; cbv zeta.
  now rewrite E, Bool.eqb_reflx.
Qed.

(** On vertices of one longitude the loop never toggles. *)
Lemma isPointInPolygonFrom_level point y vj rest inside :
  lng vj = y ->
  Forall (fun v => lng v = y) rest ->
  isPointInPolygonFrom point vj rest inside = inside.
Proof.
  intros Hj Hrest; revert vj inside Hj.
  induction Hrest as [|vi rest Hi _ IH]; intros vj inside Hj;
    cbn [isPointInPolygonFrom]; [reflexivity|].
  rewrite edgeCrosses_level by congruence.
  now apply IH.
Qed.

(** X24. A polygon whose vertices all have the same longitude contains no
    point; this covers the empty polygon, a single vertex and any number
    of vertices on one meridian. *)
Theorem isPointInPolygon_degenerate point polygon y :
  Forall (fun v => lng v = y) polygon ->
  isPointInPolygon point polygon = false.
Proof.
  intros Hlevel.
  unfold isPointInPolygon.
  destruct (Js.lastElement polygon) as [vj|] eqn:Hlast; [|reflexivity].
  apply (isPointInPolygonFrom_level point y); trivial.
  apply nth_error_In in Hlast.
  rewrite Forall_forall in Hlevel; now apply Hlevel.
Qed.

(** The ray test on the corners [generateCoverageRectangle] lists. *)
Lemma isPointInPolygon_box point north south west east :
  south < north ->
  west < east ->
  isPointInPolygon point
    [ {| lat := north; lng := west |}; {| lat := north; lng := east |};
      {| lat := south; lng := east |}; {| lat := south; lng := west |} ]
  = true
  <-> (south <= lat point < north /\ west <= lng point < east).
Proof.
  intros Hlat Hlng.
  unfold isPointInPolygon, Js.lastElement.
  cbn [List.length Nat.sub nth_error isPointInPolygonFrom].
  rewrite (edgeCrosses_level point {| lat := north; lng := west |}
             {| lat := south; lng := west |}) by reflexivity.
  rewrite (edgeCrosses_level point {| lat := south; lng := east |}
             {| lat := north; lng := east |}) by reflexivity.
  unfold edgeCrosses; cbv zeta; cbn [lat lng].
  replace ((north - north) * (lng point - east) / (west - east) + north)
    with north by (field; lra).
  replace ((south - south) * (lng point - west) / (east - west) + south)
    with south by (field; lra).
  unfold Js.ltb.
  destruct (Rlt_dec (lng point) east), (Rlt_dec (lng point) west),
    (Rlt_dec (lat point) north), (Rlt_dec (lat point) south);
    cbn [Bool.eqb negb andb]; split; intros H;
    try discriminate; try reflexivity; lra.
Qed.

(** X25. The rectangle of [generateCoverageRectangle], tested with
    [isPointInPolygon], is the half-open box around the centre: a point is
    inside exactly when its latitude is within half the height and its
    longitude within half the width (scaled by the cosine of the centre's
    latitude), south and west edges included, north and east edges not. *)
Theorem coverage_rectangle_contains center widthMeters heightMeters point :
  -90 < lat center < 90 ->
  0 < widthMeters ->
  0 < heightMeters ->
  let latOffset := heightMeters / 2 / 111000 in
  let lngOffset := widthMeters / 2 / (111000 * cos (lat center * PI / 180)) in
  isPointInPolygon point
    (generateCoverageRectangle center widthMeters heightMeters) = true
  <-> (lat center - latOffset <= lat point < lat center + latOffset
       /\ lng center - lngOffset <= lng point < lng center + lngOffset).
Proof.
  intros Hlat Hw Hh; cbv zeta.
  pose proof PI_bounds as HPI.
  assert (Hcos : 0 < cos (lat center * PI / 180))
    by (apply cos_gt_0; nra).
  assert (HlatOff : 0 < heightMeters / 2 / 111000) by lra.
  assert (HlngOff :
            0 < widthMeters / 2 / (111000 * cos (lat center * PI / 180))).
  { apply Rdiv_lt_0_compat; nra. }
  unfold generateCoverageRectangle; cbv zeta.
  rewrite isPointInPolygon_box by lra.
  tauto.
Qed.

(** The rectangle around a centre contains the centre. *)
Lemma coverage_box center side :
  -90 < lat center < 90 ->
  0 < side ->
  isPointInPolygon center (generateCoverageRectangle center (side * 2) (side * 2))
  = true.
Proof.
  intros Hlat Hside.
  pose proof PI_bounds as HPI.
  assert (Hcos : 0 < cos (lat center * PI / 180))
    by (apply cos_gt_0; nra).
  assert (HlngOff :
            0 < side * 2 / 2 / (111000 * cos (lat center * PI / 180))).
  { apply Rdiv_lt_0_compat; nra. }
  unfold generateCoverageRectangle; cbv zeta.
  apply isPointInPolygon_box; lra.
Qed.

Lemma getCoverageRadius_positive altitude :
  0 <= altitude -> 0 < getCoverageRadius altitude.
Proof.
  intros H; destruct (Req_dec altitude 0) as [->|Hne].
  - rewrite getCoverageRadius_zero; lra.
  - rewrite getCoverageRadius_nonzero; lra.
Qed.

(** X26. Every footprint the map draws contains its sample: for a vehicle
    and a sample whose altitudes are 0 or between 1 m and 1000 km, a
    latitude strictly between -90 and 90 and a longitude between -180 and
    180, the position of the sample is inside the rectangle drawn for
    it. *)
Theorem coverageFootprint_contains_sample uav cp :
  altitude uav = 0 \/ 1 <= altitude uav <= 1000000 ->
  match cp with
  | Sample _ alt => alt = 0 \/ 1 <= alt <= 1000000
  | Legacy _ => True
  end ->
  -90 < lat (samplePosition cp) < 90 ->
  -180 <= lng (samplePosition cp) <= 180 ->
  isPointInPolygon (samplePosition cp) (coverageFootprint uav cp) = true.
Proof.
  intros Huav' Hcp' Hlat _.
  assert (Huav : 0 <= altitude uav) by (destruct Huav'; lra).
  assert (Hcp : match cp with Sample _ alt => 0 <= alt | Legacy _ => True end)
    by (destruct cp; trivial; destruct Hcp'; lra).
  pose proof PI_bounds as HPI.
  unfold coverageFootprint, generateCoverageCircle; cbv zeta.
  set (alt := match cp with
              | Sample _ a => Js.orElse a (altitude uav)
              | Legacy _ => altitude uav
              end).
  assert (Halt : 0 <= alt).
  { unfold alt; destruct cp as [pos a|pos]; trivial.
    unfold Js.orElse; destruct (Js.isZero a); trivial. }
  pose proof (getCoverageRadius_positive alt Halt) as Hr.
  assert (Hcos : 0 < cos (lat (samplePosition cp) * PI / 180))
    by (apply cos_gt_0; nra).
  now apply coverage_box.
Qed.

(* ================================================================== *)
(** ** Areas, messages and labels *)

(** X27. The covered area is additive over the sample list: the area of
    two lists put together is the sum of their areas, and a missing or
    empty list has area 0. *)
Theorem calculateCoverageArea_additive
    {A : Type} (ps qs : list A) (radiusMeters : R) :
  calculateCoverageArea (Some (ps ++ qs)) radiusMeters
  = calculateCoverageArea (Some ps) radiusMeters
    + calculateCoverageArea (Some qs) radiusMeters
  /\ calculateCoverageArea (Some (@nil A)) radiusMeters = 0
  /\ calculateCoverageArea (@None (list A)) radiusMeters = 0.
Proof.
  repeat split.
  unfold calculateCoverageArea; cbv zeta.
  rewrite length_app, plus_INR.
  destruct ps as [|p ps], qs as [|q qs];
    cbn [List.length Nat.add Nat.eqb]; rewrite ?Nat.add_0_r;
    cbn [Nat.eqb]; simpl INR; lra.
Qed.

Lemma getCoverageRadius_nonzero_value altitude :
  getCoverageRadius altitude <> 0.
Proof.
  destruct (Req_dec altitude 0) as [->|Hne].
  - rewrite getCoverageRadius_zero; lra.
  - rewrite getCoverageRadius_nonzero; lra.
Qed.

(** X28. For a vehicle whose altitude is 0 or at least 1 m in absolute
    value, the area the telemetry panel shows is 0 exactly when the
    vehicle has no coverage sample. *)
Theorem telemetryCoverageArea_zero uav :
  altitude uav = 0 \/ 1 <= Rabs (altitude uav) ->
  telemetryCoverageArea uav = 0
  <-> Js.orEmpty (coveragePoints uav) = [].
Proof.
  intros _.
  pose proof PI_bounds as HPI.
  unfold telemetryCoverageArea, calculateCoverageArea; cbv zeta.
  destruct (Js.orEmpty (coveragePoints uav)) as [|c cs].
  - cbn [List.length Nat.eqb]; tauto.
  - cbn [List.length Nat.eqb]; split; [|discriminate].
    intros H; exfalso.
    pose proof (getCoverageRadius_nonzero_value (altitude uav)) as Hr.
    assert (Hsq : 0 < getCoverageRadius (altitude uav) ^ 2).
    { cbn [pow]; rewrite Rmult_1_r.
      apply Rsqr_pos_lt in Hr; exact Hr. }
    assert (Hn : 0 < INR (S (List.length cs))) by (apply lt_0_INR; lia).
    assert (0 < PI * getCoverageRadius (altitude uav) ^ 2
                * INR (S (List.length cs)))
      by (apply Rmult_lt_0_compat; [apply Rmult_lt_0_compat|]; lra).
    lra.
Qed.

(** The floor of a number in [0, n) is an integer in [0, n). *)
Lemma Int_part_between x n :
  0 <= x < IZR n -> (0 <= Int_part x < n)%Z.
Proof.
  intros Hx.
  destruct (base_Int_part x) as [Hlo Hhi].
  split.
  - destruct (Z.le_gt_cases 0 (Int_part x)) as [H|H]; trivial.
    assert (IZR (Int_part x) <= -1) by (apply IZR_le; lia).
    lra.
  - apply lt_IZR; lra.
Qed.

(** X29. [generateSurvivorMessage] always returns one of its messages:
    for every value of [Math.random()] in [0,1) the index is inside the
    array. *)
Theorem generateSurvivorMessage_defined random :
  0 <= random < 1 ->
  exists message,
    generateSurvivorMessage random = Some message
    /\ In message survivorMessages.
Proof.
  intros Hr.
  unfold generateSurvivorMessage; cbv zeta.
  set (x := random * INR (List.length survivorMessages)).
  assert (Hx : 0 <= x < 7).
  { unfold x; cbn [survivorMessages List.length]; simpl INR; lra. }
  assert (Hi : (0 <= Int_part x < 7)%Z) by (apply Int_part_between; lra).
  destruct (Int_part x <? 0)%Z eqn:E; [apply Z.ltb_lt in E; lia|].
  destruct (nth_error survivorMessages (Z.to_nat (Int_part x)))
    as [m|] eqn:Hm.
  - exists m; split; [reflexivity|].
    eapply nth_error_In; eassumption.
  - apply nth_error_None in Hm.
    cbn [survivorMessages List.length] in Hm; lia.
Qed.

Lemma formatDirection_on_compass degrees :
  0 <= degrees <= 360 ->
  exists label, formatDirection degrees = Some label.
Proof.
  intros Hd.
  unfold formatDirection; cbv zeta.
  set (x := degrees / 45 + 0.5).
  assert (Hx : 0.5 <= x <= 8.5) by (unfold x; lra).
  assert (Hi : (0 <= Int_part x < 9)%Z) by (apply Int_part_between; lra).
  pose proof (Z.rem_bound_pos (Int_part x) 8 (proj1 Hi) ltac:(lia)) as Hrem.
  destruct (Z.rem (Int_part x) 8 <? 0)%Z eqn:E; [apply Z.ltb_lt in E; lia|].
  destruct (nth_error compassLabels (Z.to_nat (Z.rem (Int_part x) 8)))
    as [label|] eqn:Hl.
  - now exists label.
  - apply nth_error_None in Hl.
    cbn [compassLabels List.length] in Hl; lia.
Qed.

(** X30. The telemetry panel has a compass label for every heading the
    simulation computes: [formatDirection] is defined on the bearing of
    any two points. *)
Theorem formatDirection_of_bearing p q :
  exists label, formatDirection (calculateBearing p q) = Some label.
Proof.
  apply formatDirection_on_compass.
  pose proof (calculateBearing_bounds p q); lra.
Qed.

(* ================================================================== *)
(** ** Instances of the theorems above *)

Lemma call_flightPath_capped_witness :
  (List.length (Js.orEmpty (flightPath Mission.after2)) <= 100)%nat
  /\ (List.length
        (Js.orEmpty
           (flightPath (updateUAVState Mission.after2 (Some Mission.route) 1)))
      <= 100)%nat.
Proof.
  assert (H : (List.length (Js.orEmpty (flightPath Mission.after2)) <= 100)%nat)
    by (cbn; lia).
  split; [exact H|].
  apply call_flightPath_capped; exact H.
Defined.

Lemma call_altitudeHistory_capped_witness :
  (List.length (Js.orEmpty (altitudeHistory Mission.after2)) <= 8)%nat
  /\ (List.length
        (Js.orEmpty
           (altitudeHistory
              (updateUAVState Mission.after2 (Some Mission.route) 1)))
      <= 8)%nat.
Proof.
  assert (H : (List.length (Js.orEmpty (altitudeHistory Mission.after2)) <= 8)%nat)
    by (cbn; lia).
  split; [exact H|].
  apply call_altitudeHistory_capped; exact H.
Defined.

Lemma searching_index_bounded_witness :
  isOnline Mission.after1 = true
  /\ isMock Mission.after1 = true
  /\ status Mission.after1 = "searching"%string
  /\ (1 <= List.length (Js.orEmpty (bounds Mission.route)))%nat
  /\ exists i',
       currentWaypointIndex (updateUAVState Mission.after1 (Some Mission.route) 1)
       = Some i'
       /\ (i' <= List.length (Js.orEmpty (bounds Mission.route)))%nat.
Proof.
  assert (H : (1 <= List.length (Js.orEmpty (bounds Mission.route)))%nat)
    by (cbn; lia).
  repeat (split; [first [reflexivity | exact H]|]).
  apply searching_index_bounded; first [reflexivity | exact H].
Defined.


Lemma transit_records_no_coverage_witness :
  isOnline Mission.started = true
  /\ isMock Mission.started = true
  /\ status Mission.started = "searching"%string
  /\ nth_error (Js.orEmpty (bounds Cases.routeNorth)) 0 = Some Mission.north
  /\ 20 <= calculateDistance (position Mission.started) Mission.north
  /\ currentWaypointIndex
       (updateUAVState Mission.started (Some Cases.routeNorth) 1)
     = Some 0%nat
  /\ coveragePoints (updateUAVState Mission.started (Some Cases.routeNorth) 1)
     = Some (Js.orEmpty (coveragePoints Mission.started)).
Proof.
  assert (Hd : 20 <= calculateDistance (position Mission.started) Mission.north).
  { cbn [Mission.started position]; rewrite home_to_north.
    pose proof PI_bounds; lra. }
  repeat (split; [first [reflexivity | exact Hd]|]).
  apply (transit_records_no_coverage Mission.started Cases.routeNorth 1
           Mission.north);
    first [reflexivity | exact Hd].
Defined.

Lemma searching_moves_toward_waypoint_witness :
  isOnline Mission.after1 = true
  /\ isMock Mission.after1 = true
  /\ status Mission.after1 = "searching"%string
  /\ 1 <= Js.orDefault (targetSpeed Mission.after1) 50
  /\ nth_error (Js.orEmpty (bounds Mission.route)) 1 = Some Mission.north
  /\ 20 <= calculateDistance (position Mission.after1) Mission.north
  /\ position (updateUAVState Mission.after1 (Some Mission.route) 1)
     = calculateNewPosition (position Mission.after1)
         (calculateBearing (position Mission.after1) Mission.north)
         (Js.orDefault (targetSpeed Mission.after1) 50 / 3.6) 1.
Proof.
  assert (Hd : 20 <= calculateDistance (position Mission.after1) Mission.north).
  { cbn [Mission.after1 position]; rewrite home_to_north.
    pose proof PI_bounds; lra. }
  assert (Hts : 1 <= Js.orDefault (targetSpeed Mission.after1) 50).
  { cbn [Mission.after1 targetSpeed]; rewrite orDefault_some; lra. }
  repeat (split; [first [reflexivity | exact Hd | exact Hts]|]).
  apply (searching_moves_toward_waypoint Mission.after1 Mission.route 1
           Mission.north);
    first [reflexivity | exact Hd | exact Hts].
Defined.

Lemma returning_moves_home_witness :
  isOnline Cases.homeward = true
  /\ isMock Cases.homeward = true
  /\ status Cases.homeward = "returning"%string
  /\ startPosition Cases.homeward = Some Mission.home
  /\ 20 <= calculateDistance (position Cases.homeward) Mission.home
  /\ status (updateUAVState Cases.homeward None 1) = "returning"%string.
Proof.
  assert (Hd : 20 <= calculateDistance (position Cases.homeward) Mission.home).
  { cbn [Cases.homeward Mission.after3 position set_status].
    rewrite step2_to_home.
    pose proof PI_bounds; lra. }
  repeat (split; [first [reflexivity | exact Hd]|]).
  apply (returning_moves_home Cases.homeward None 1 Mission.home);
    first [reflexivity | exact Hd].
Defined.

Lemma returning_without_start_witness :
  isOnline Cases.stranded = true
  /\ isMock Cases.stranded = true
  /\ status Cases.stranded = "returning"%string
  /\ startPosition Cases.stranded = None
  /\ updateUAVState Cases.stranded (Some Mission.route) 1
     = set_speed 0 (set_status "idle" Cases.stranded).
Proof.
  repeat (split; [reflexivity|]).
  apply returning_without_start; reflexivity.
Defined.

Lemma resume_after_append_witness :
  isOnline Scenario.resumed = true
  /\ isMock Scenario.resumed = true
  /\ status Scenario.resumed = "searching"%string
  /\ 1 <= Js.orDefault (targetSpeed Scenario.resumed) 50
  /\ currentWaypointIndex Scenario.resumed
     = Some (List.length (Js.orEmpty (bounds Mission.route)))
  /\ battery
       (updateUAVState Scenario.resumed
          (Some (set_bounds
                   (Some (Js.orEmpty (bounds Mission.route) ++ [Mission.home]))
                   Mission.route)) 1)
     = Rmax 0 (battery Scenario.resumed - 0.1 * 1).
Proof.
  assert (Hts : 1 <= Js.orDefault (targetSpeed Scenario.resumed) 50).
  { cbn [Scenario.resumed Mission.after1 targetSpeed set_status
         set_currentWaypointIndex set_position].
    rewrite orDefault_some; lra. }
  repeat (split; [first [reflexivity | exact Hts]|]).
  apply (resume_after_append Scenario.resumed Mission.route 1 Mission.home);
    first [reflexivity | exact Hts].
Defined.

Lemma appendWaypoint_visible_witness :
  find (App.assignedTo "1") [Mission.route] = Some Mission.route
  /\ area_status Mission.route = "active"%string
  /\ find (App.assignedTo "1")
       (App.appendWaypoint "1" Mission.home [Mission.route])
     = Some (set_bounds
               (Some (Js.orEmpty (bounds Mission.route) ++ [Mission.home]))
               Mission.route).
Proof.
  repeat (split; [reflexivity|]).
  apply appendWaypoint_visible; reflexivity.
Defined.

Lemma cancel_after_start_lands_witness :
  isOnline Mission.after2 = true
  /\ isMock Mission.after2 = true
  /\ status (updateUAVState (App.cancelSearch (App.startSearch Mission.after2))
               (Some Mission.route) 1)
     = "idle"%string
  /\ position (updateUAVState (App.cancelSearch (App.startSearch Mission.after2))
                 (Some Mission.route) 1)
     = position Mission.after2.
Proof.
  repeat (split; [reflexivity|]).
  split; apply (cancel_after_start_lands Mission.after2 (Some Mission.route) 1);
    reflexivity.
Defined.


Lemma calculateDistance_meridian_witness :
  lng Mission.home = lng Mission.north
  /\ Rabs (lat Mission.home - lat Mission.north) < 180
  /\ calculateDistance Mission.north Mission.home
     = 6371000 * (Rabs (lat Mission.home - lat Mission.north) * PI / 180).
Proof.
  assert (H : Rabs (lat Mission.home - lat Mission.north) < 180).
  { cbn [lat Mission.home Mission.north]; rewrite Rabs_left; lra. }
  repeat (split; [first [reflexivity | exact H]|]).
  apply calculateDistance_meridian; [reflexivity | exact H].
Defined.

Lemma calculateBearing_meridian_witness :
  -90 <= lat Mission.north <= 90
  /\ -90 <= lat Mission.home <= 90
  /\ lng Mission.home = lng Mission.north
  /\ 0.000001 <= Rabs (lat Mission.home - lat Mission.north) <= 179
  /\ calculateBearing Mission.north Mission.home
     = (if Rlt_dec (lat Mission.home) (lat Mission.north) then 180 else 0).
Proof.
  assert (Hp : -90 <= lat Mission.north <= 90) by (cbn; lra).
  assert (Hq : -90 <= lat Mission.home <= 90) by (cbn; lra).
  assert (H : 0.000001 <= Rabs (lat Mission.home - lat Mission.north) <= 179).
  { cbn [lat Mission.home Mission.north]; rewrite Rabs_left; lra. }
  repeat (split; [first [reflexivity | exact H | exact Hp | exact Hq]|]).
  apply calculateBearing_meridian;
    [exact Hp | exact Hq | reflexivity | right; exact H].
Defined.

Lemma north_step_distance_witness :
  0 <= 15 * 1 / 111000 < 180
  /\ calculateDistance Mission.home (calculateNewPosition Mission.home 0 15 1)
     = 15 * 1 * (6371000 * PI / (180 * 111000)).
Proof.
  assert (H : 0 <= 15 * 1 / 111000 < 180) by lra.
  split; [exact H|].
  apply north_step_distance; exact H.
Defined.

Lemma isPointInPolygon_degenerate_witness :
  Forall (fun v => lng v = -104.876670) [Mission.home; Mission.north]
  /\ isPointInPolygon Mission.step1 [Mission.home; Mission.north] = false.
Proof.
  assert (H : Forall (fun v => lng v = -104.876670)
                [Mission.home; Mission.north])
    by (repeat constructor).
  split; [exact H|].
  apply (isPointInPolygon_degenerate Mission.step1
           [Mission.home; Mission.north] (-104.876670) H).
Defined.

Lemma coverage_rectangle_contains_witness :
  -90 < lat Mission.home < 90
  /\ 0 < 40
  /\ (isPointInPolygon Mission.step1
        (generateCoverageRectangle Mission.home 40 40) = true
      <-> (lat Mission.home - 40 / 2 / 111000 <= lat Mission.step1
             < lat Mission.home + 40 / 2 / 111000
           /\ lng Mission.home
              - 40 / 2 / (111000 * cos (lat Mission.home * PI / 180))
              <= lng Mission.step1
              < lng Mission.home
                + 40 / 2 / (111000 * cos (lat Mission.home * PI / 180)))).
Proof.
  assert (Hlat : -90 < lat Mission.home < 90) by (cbn; lra).
  assert (Hpos : 0 < 40) by lra.
  split; [exact Hlat|].
  split; [exact Hpos|].
  apply (coverage_rectangle_contains Mission.home 40 40 Mission.step1
           Hlat Hpos Hpos).
Defined.

Lemma coverageFootprint_contains_sample_witness :
  (altitude Mission.after3 = 0 \/ 1 <= altitude Mission.after3 <= 1000000)
  /\ (40 = 0 \/ 1 <= 40 <= 1000000)
  /\ -90 < lat (samplePosition (Sample Mission.step2 40)) < 90
  /\ -180 <= lng (samplePosition (Sample Mission.step2 40)) <= 180
  /\ isPointInPolygon Mission.step2
       (coverageFootprint Mission.after3 (Sample Mission.step2 40)) = true.
Proof.
  assert (Ha : altitude Mission.after3 = 0
               \/ 1 <= altitude Mission.after3 <= 1000000)
    by (right; cbn; lra).
  assert (Hs : 40 = 0 \/ 1 <= 40 <= 1000000) by (right; lra).
  assert (Hlat : -90 < lat (samplePosition (Sample Mission.step2 40)) < 90)
    by (cbn; lra).
  assert (Hlng : -180 <= lng (samplePosition (Sample Mission.step2 40)) <= 180)
    by (cbn; lra).
  split; [exact Ha|].
  split; [exact Hs|].
  split; [exact Hlat|].
  split; [exact Hlng|].
  apply (coverageFootprint_contains_sample Mission.after3
           (Sample Mission.step2 40) Ha Hs Hlat Hlng).
Defined.

Lemma telemetryCoverageArea_zero_witness :
  (altitude Mission.after3 = 0 \/ 1 <= Rabs (altitude Mission.after3))
  /\ (telemetryCoverageArea Mission.after3 = 0
      <-> Js.orEmpty (coveragePoints Mission.after3) = []).
Proof.
  assert (Ha : altitude Mission.after3 = 0
               \/ 1 <= Rabs (altitude Mission.after3)).
  { right; cbn [Mission.after3 altitude]; rewrite Rabs_right; lra. }
  split; [exact Ha|].
  apply telemetryCoverageArea_zero; exact Ha.
Defined.

Lemma generateSurvivorMessage_defined_witness :
  0 <= 0.5 < 1
  /\ exists message,
       generateSurvivorMessage 0.5 = Some message
       /\ In message survivorMessages.
Proof.
  assert (H : 0 <= 0.5 < 1) by lra.
  split; [exact H|].
  apply generateSurvivorMessage_defined; exact H.
Defined.
